(** * Daily Journal: the session-gated CRUD controller of [src/App.tsx]

    The React component [App] keeps twelve pieces of state and talks to a
    hosted backend (identity + one table, [journal_entries]).  This file
    embeds its event handlers as programs of a small state-and-exception
    monad over a [World]: the component state, the outside environment
    (backend, user answering [confirm], clock), the backend calls issued so
    far, the console, and the pending timers.

    A handler is run from the click (or event) that starts it to its end:
    each [await] is answered by the outside world on the spot, and no other
    handler runs in between. *)

From Stdlib Require Import List ZArith NArith Bool String Ascii Lia.
Import ListNotations.
Local Open Scope Z_scope.

(** ** JavaScript strings

    A JS string is a sequence of UTF-16 code units.  String literals of the
    source are ASCII, and are written with [lit]. *)

Definition jsstring := list N.

Definition lit (s : string) : jsstring :=
  map (fun c => N_of_ascii c) (list_ascii_of_string s).

(** [WhiteSpace] and [LineTerminator] of ECMAScript: what [trim] strips. *)
Definition isWhiteSpace (c : N) : bool :=
  ((c =? 9) || (c =? 10) || (c =? 11) || (c =? 12) || (c =? 13) || (c =? 32)
   || (c =? 160) || (c =? 5760)
   || ((8192 <=? c) && (c <=? 8202))
   || (c =? 8232) || (c =? 8233) || (c =? 8239) || (c =? 8287)
   || (c =? 12288) || (c =? 65279))%N.

Fixpoint trimStart (s : jsstring) : jsstring :=
  match s with
  | [] => []
  | c :: r => if isWhiteSpace c then trimStart r else s
  end.

Definition trimEnd (s : jsstring) : jsstring := rev (trimStart (rev s)).

(** [String.prototype.trim] *)
Definition trim (s : jsstring) : jsstring := trimEnd (trimStart s).

(** Truthiness of a string: only the empty string is falsy. *)
Definition truthy_string (s : jsstring) : bool :=
  match s with [] => false | _ => true end.

(** ** [Date.prototype.toISOString]

    [new Date()] is a time value: milliseconds since the epoch, UTC.  The
    calendar date is recovered by the usual era/day-of-era computation on the
    proleptic Gregorian calendar. *)

Definition msPerDay : Z := 86400000.

Definition civil_from_days (days : Z) : Z * Z * Z :=
  let z := days + 719468 in
  let era := z / 146097 in
  let doe := z - era * 146097 in
  let yoe := (doe - doe / 1460 + doe / 36524 - doe / 146096) / 365 in
  let y := yoe + era * 400 in
  let doy := doe - (365 * yoe + yoe / 4 - yoe / 100) in
  let mp := (5 * doy + 2) / 153 in
  let d := doy - (153 * mp + 2) / 5 + 1 in
  let m := if mp <? 10 then mp + 3 else mp - 9 in
  (if m <=? 2 then y + 1 else y, m, d).

Definition digit (n : Z) : N := (48 + Z.to_N (n mod 10))%N.

(** [n] written with exactly [w] decimal digits, zero padded. *)
Fixpoint pad (w : nat) (n : Z) : jsstring :=
  match w with
  | O => []
  | S w' => pad w' (n / 10) ++ [digit n]
  end.

Definition isoYear (y : Z) : jsstring :=
  if (0 <=? y) && (y <=? 9999) then pad 4 y
  else if y <? 0 then lit "-" ++ pad 6 (- y)
  else lit "+" ++ pad 6 y.

Definition toISOString (t : Z) : jsstring :=
  let '(y, m, d) := civil_from_days (t / msPerDay) in
  let r := t mod msPerDay in
  isoYear y ++ lit "-" ++ pad 2 m ++ lit "-" ++ pad 2 d ++ lit "T"
    ++ pad 2 (r / 3600000) ++ lit ":" ++ pad 2 (r / 60000 mod 60) ++ lit ":"
    ++ pad 2 (r / 1000 mod 60) ++ lit "." ++ pad 3 (r mod 1000) ++ lit "Z".

(** ** Data model *)

Record User := { user_id_of : jsstring }.

(** [Session] of the backend client; the source reads [session?.user] and
    [currentSession.user.id]. *)
Record Session := { user : option User; access_token : jsstring }.

Record JournalEntry := {
  id : jsstring;
  content : jsstring;
  created_at : jsstring;
  user_id : jsstring
}.

(** The object literal handed to [insert]: the backend assigns [id]. *)
Record NewEntry := {
  new_user_id : jsstring;
  new_content : jsstring;
  new_created_at : jsstring
}.

(** A value that is thrown or returned in an [error] field.  The handlers
    only ask whether it is an [Error] instance and, if so, for its message. *)
Record JsError := { instanceofError : bool; message : jsstring }.

(** [new Error(msg)] *)
Definition newError (msg : jsstring) : JsError :=
  {| instanceofError := true; message := msg |}.

(** The twelve [useState] cells of [App]. *)
Record AppState := {
  session : option Session;
  loading : bool;
  email : jsstring;
  password : jsstring;
  showPassword : bool;
  isLogin : bool;
  authError : option jsstring;
  currentEntry : jsstring;
  entries : list JournalEntry;
  saving : bool;
  error : option jsstring;
  showSuccess : bool
}.

(** State on first render. *)
Definition initialState : AppState :=
  {| session := None; loading := true; email := []; password := [];
     showPassword := false; isLogin := true; authError := None;
     currentEntry := []; entries := []; saving := false; error := None;
     showSuccess := false |}.

Definition with_session (v : option Session) (s : AppState) : AppState :=
  {| session := v; loading := loading s; email := email s;
     password := password s; showPassword := showPassword s;
     isLogin := isLogin s; authError := authError s;
     currentEntry := currentEntry s; entries := entries s;
     saving := saving s; error := error s; showSuccess := showSuccess s |}.

Definition with_loading (v : bool) (s : AppState) : AppState :=
  {| session := session s; loading := v; email := email s;
     password := password s; showPassword := showPassword s;
     isLogin := isLogin s; authError := authError s;
     currentEntry := currentEntry s; entries := entries s;
     saving := saving s; error := error s; showSuccess := showSuccess s |}.

Definition with_authError (v : option jsstring) (s : AppState) : AppState :=
  {| session := session s; loading := loading s; email := email s;
     password := password s; showPassword := showPassword s;
     isLogin := isLogin s; authError := v;
     currentEntry := currentEntry s; entries := entries s;
     saving := saving s; error := error s; showSuccess := showSuccess s |}.

Definition with_currentEntry (v : jsstring) (s : AppState) : AppState :=
  {| session := session s; loading := loading s; email := email s;
     password := password s; showPassword := showPassword s;
     isLogin := isLogin s; authError := authError s;
     currentEntry := v; entries := entries s;
     saving := saving s; error := error s; showSuccess := showSuccess s |}.

Definition with_entries (v : list JournalEntry) (s : AppState) : AppState :=
  {| session := session s; loading := loading s; email := email s;
     password := password s; showPassword := showPassword s;
     isLogin := isLogin s; authError := authError s;
     currentEntry := currentEntry s; entries := v;
     saving := saving s; error := error s; showSuccess := showSuccess s |}.

Definition with_saving (v : bool) (s : AppState) : AppState :=
  {| session := session s; loading := loading s; email := email s;
     password := password s; showPassword := showPassword s;
     isLogin := isLogin s; authError := authError s;
     currentEntry := currentEntry s; entries := entries s;
     saving := v; error := error s; showSuccess := showSuccess s |}.

Definition with_error (v : option jsstring) (s : AppState) : AppState :=
  {| session := session s; loading := loading s; email := email s;
     password := password s; showPassword := showPassword s;
     isLogin := isLogin s; authError := authError s;
     currentEntry := currentEntry s; entries := entries s;
     saving := saving s; error := v; showSuccess := showSuccess s |}.

Definition with_showSuccess (v : bool) (s : AppState) : AppState :=
  {| session := session s; loading := loading s; email := email s;
     password := password s; showPassword := showPassword s;
     isLogin := isLogin s; authError := authError s;
     currentEntry := currentEntry s; entries := entries s;
     saving := saving s; error := error s; showSuccess := v |}.

(** ** The outside world

    Every call of the backend client resolves to a [{ data, error }] object;
    what it resolves to is up to the backend.  [confirm] is answered by the
    user; [new Date()] reads the clock.  Reading a property off a [null] or
    [undefined] value throws a [TypeError] whose message is worded by the
    engine: [typeError_message prop] is that wording.  [Env X] is any such
    outside world with state [X]. *)

Record SessionReply := {
  data_session : option Session;
  sessionError : option JsError
}.

Record SelectReply := {
  data : option (list JournalEntry);
  selectError : option JsError
}.

Record Env (X : Type) := {
  auth_getSession : X -> SessionReply * X;
  auth_signInWithPassword : jsstring -> jsstring -> X -> option JsError * X;
  auth_signUp : jsstring -> jsstring -> X -> option JsError * X;
  auth_signOut : X -> X;
  from_select_order : jsstring -> jsstring -> jsstring -> bool -> X -> SelectReply * X;
  from_insert : jsstring -> list NewEntry -> X -> option JsError * X;
  from_delete_eq : jsstring -> jsstring -> jsstring -> X -> option JsError * X;
  window_confirm : jsstring -> X -> bool * X;
  date_now : X -> Z;
  typeError_message : jsstring -> X -> jsstring
}.

Arguments auth_getSession {X}.
Arguments auth_signInWithPassword {X}.
Arguments auth_signUp {X}.
Arguments auth_signOut {X}.
Arguments from_select_order {X}.
Arguments from_insert {X}.
Arguments from_delete_eq {X}.
Arguments window_confirm {X}.
Arguments date_now {X}.
Arguments typeError_message {X}.

(** Requests that reach the backend, as the client issues them. *)
Inductive Call :=
| GetSession
| OnAuthStateChange
| Unsubscribe
| SignInWithPassword (email password : jsstring)
| SignUp (email password : jsstring)
| SignOut
| SelectOrder (table columns column : jsstring) (ascending : bool)
| Insert (table : jsstring) (rows : list NewEntry)
| DeleteEq (table column value : jsstring).

Definition is_insert (c : Call) : bool :=
  match c with Insert _ _ => true | _ => false end.

(** [console.error(label, value)] *)
Record LogLine := { log_label : jsstring; log_value : JsError }.

(** Callbacks handed to [setTimeout]; the source has one. *)
Inductive TimerCallback := HideSuccess.

Record Timer := { delay_ms : Z; callback : TimerCallback }.

Record World (X : Type) := {
  react : AppState;
  outside : X;
  calls : list Call;
  console : list LogLine;
  timers : list Timer
}.

Arguments react {X}.
Arguments outside {X}.
Arguments calls {X}.
Arguments console {X}.
Arguments timers {X}.
Arguments Build_World {X}.

(** ** The monad of handlers: state over [World], with [throw]. *)

Inductive Result (A : Type) :=
| Ok (a : A)
| Threw (e : JsError).

Arguments Ok {A}.
Arguments Threw {A}.

Definition M (X A : Type) : Type := World X -> Result A * World X.

Definition ret {X A} (a : A) : M X A := fun w => (Ok a, w).

Definition bind {X A B} (m : M X A) (k : A -> M X B) : M X B :=
  fun w => match m w with
           | (Ok a, w') => k a w'
           | (Threw e, w') => (Threw e, w')
           end.

Definition throw {X A} (e : JsError) : M X A := fun w => (Threw e, w).

(** [try { body } catch (err) { handler }] *)
Definition tryCatch {X A} (body : M X A) (handler : JsError -> M X A) : M X A :=
  fun w => match body w with
           | (Ok a, w') => (Ok a, w')
           | (Threw e, w') => handler e w'
           end.

(** [try { body } finally { cleanup }] *)
Definition tryFinally {X A} (body : M X A) (cleanup : M X unit) : M X A :=
  fun w => match body w with
           | (r, w') => match cleanup w' with
                        | (Ok _, w'') => (r, w'')
                        | (Threw e, w'') => (Threw e, w'')
                        end
           end.

Declare Scope js_scope.
Delimit Scope js_scope with js.
Notation "x <- c1 ;; c2" := (bind c1 (fun x => c2))
  (at level 100, c1 at next level, right associativity) : js_scope.
Notation "c1 ;; c2" := (bind c1 (fun _ => c2))
  (at level 100, right associativity) : js_scope.
Local Open Scope js_scope.

(** The values of the state cells as the running handler's closure sees
    them: those of the render in which it was created. *)
Definition rendered {X} : M X AppState := fun w => (Ok (react w), w).

Definition setState {X} (f : AppState -> AppState) : M X unit :=
  fun w => (Ok tt, {| react := f (react w); outside := outside w;
                      calls := calls w; console := console w;
                      timers := timers w |}).

Definition setSession {X} v : M X unit := setState (with_session v).
Definition setLoading {X} v : M X unit := setState (with_loading v).
Definition setAuthError {X} v : M X unit := setState (with_authError v).
Definition setCurrentEntry {X} v : M X unit := setState (with_currentEntry v).
Definition setEntries {X} v : M X unit := setState (with_entries v).
Definition setSaving {X} v : M X unit := setState (with_saving v).
Definition setError {X} v : M X unit := setState (with_error v).
Definition setShowSuccess {X} v : M X unit := setState (with_showSuccess v).

Definition console_error {X} (label : string) (v : JsError) : M X unit :=
  fun w => (Ok tt, {| react := react w; outside := outside w;
                      calls := calls w;
                      console := console w ++ [{| log_label := lit label; log_value := v |}];
                      timers := timers w |}).

Definition setTimeout {X} (cb : TimerCallback) (ms : Z) : M X unit :=
  fun w => (Ok tt, {| react := react w; outside := outside w;
                      calls := calls w; console := console w;
                      timers := timers w ++ [{| delay_ms := ms; callback := cb |}] |}).

(** A request to the backend: recorded, then answered by the outside. *)
Definition request {X A} (c : Call) (answer : X -> A * X) : M X A :=
  fun w => let (a, x') := answer (outside w) in
           (Ok a, {| react := react w; outside := x';
                     calls := calls w ++ [c]; console := console w;
                     timers := timers w |}).

(** A registration with the client that has no reply of interest. *)
Definition notify {X} (c : Call) (effect : X -> X) : M X unit :=
  request c (fun x => (tt, effect x)).

(** Something asked of the outside that is not a backend request. *)
Definition ask {X A} (answer : X -> A * X) : M X A :=
  fun w => let (a, x') := answer (outside w) in
           (Ok a, {| react := react w; outside := x';
                     calls := calls w; console := console w;
                     timers := timers w |}).

(** ** The handlers of [App] *)

Section Handlers.

Context {X : Type} (E : Env X).

Definition journal_entries : jsstring := lit "journal_entries".

(** [new Date()] *)
Definition newDate : M X Z := ask (fun x => (date_now E x, x)).

(** [err instanceof Error ? err.message : fallback] *)
Definition messageOr (fallback : string) (err : JsError) : jsstring :=
  if instanceofError err then message err else lit fallback.

(** The [TypeError] thrown by [currentSession.user.id] when [user] is
    absent: an [Error] instance, with the engine's message. *)
Definition absentUser_error (x : X) : JsError :=
  newError (typeError_message E (lit "id") x).

(** [session?.user] is truthy *)
Definition has_user (s : option Session) : bool :=
  match s with
  | Some s' => match user s' with Some _ => true | None => false end
  | None => false
  end.

(** [loadEntries]: the list query, newest first; a failure is caught here
    and goes to the console only. *)
Definition loadEntries : M X unit :=
  tryCatch
    (r <- request (SelectOrder journal_entries (lit "*") (lit "created_at") false)
                  (from_select_order E journal_entries (lit "*") (lit "created_at") false) ;;
     match selectError r with
     | Some e => throw e
     | None => setEntries (match data r with Some d => d | None => [] end)
     end)
    (fun err => console_error "Error loading entries:" err).

(** The callback of [getSession().then(...)] in the mount effect. *)
Definition getSession_then (r : SessionReply) : M X unit :=
  setSession (data_session r) ;;
  setLoading false ;;
  match data_session r with
  | Some _ => loadEntries
  | None => ret tt
  end.

(** The callback registered with [onAuthStateChange]. *)
Definition onAuthStateChange_handler (_event : jsstring) (s : option Session)
  : M X unit :=
  setSession s ;;
  match s with
  | Some _ => loadEntries
  | None => ret tt
  end.

(** The effect run on mount: both calls are made before either callback
    runs. *)
Definition useEffect_mount : M X unit :=
  r <- request GetSession (auth_getSession E) ;;
  notify OnAuthStateChange (fun x => x) ;;
  getSession_then r.

Definition useEffect_cleanup : M X unit :=
  notify Unsubscribe (fun x => x).

Definition handleAuth : M X unit :=
  st <- rendered ;;
  setAuthError None ;;
  tryCatch
    (if isLogin st then
       (err <- request (SignInWithPassword (email st) (password st))
                       (auth_signInWithPassword E (email st) (password st)) ;;
        match err with
        | Some e => throw e
        | None => ret tt
        end)
     else
       (err <- request (SignUp (email st) (password st))
                       (auth_signUp E (email st) (password st)) ;;
        match err with
        | Some e => throw e
        | None => setAuthError
                    (Some (lit "Check your email for the confirmation link!"))
        end))
    (fun err => setAuthError (Some (messageOr "An error occurred" err))).

(** [handleSignOut]: the reply of [signOut] is not looked at. *)
Definition handleSignOut : M X unit :=
  notify SignOut (auth_signOut E) ;;
  setEntries [] ;;
  setCurrentEntry [].

(** [handleSaveEntry].  [session] and [currentEntry] are the values of the
    render the handler closes over.  The closing [loadEntries()] is not
    awaited: it is run here to its end before [finally], which touches
    another cell ([loadEntries_setSaving_commute]). *)
Definition handleSaveEntry : M X unit :=
  st <- rendered ;;
  if negb (has_user (session st)) then
    setError (Some (lit "You must be logged in to save entries"))
  else if negb (truthy_string (trim (currentEntry st))) then
    setError (Some (lit "Entry cannot be empty"))
  else
    (setSaving true ;;
     setError None ;;
     tryFinally
       (tryCatch
          (r <- request GetSession (auth_getSession E) ;;
           match sessionError r, data_session r with
           | None, Some currentSession =>
               uid <- match user currentSession with
                      | Some u => ret (user_id_of u)
                      | None => x <- ask (fun x => (x, x)) ;;
                                throw (absentUser_error x)
                      end ;;
               now <- newDate ;;
               let rows := [ {| new_user_id := uid;
                                new_content := currentEntry st;
                                new_created_at := toISOString now |} ] in
               err <- request (Insert journal_entries rows)
                              (from_insert E journal_entries rows) ;;
               match err with
               | Some e => console_error "Database error:" e ;; throw e
               | None =>
                   setCurrentEntry [] ;;
                   setShowSuccess true ;;
                   setTimeout HideSuccess 3000 ;;
                   loadEntries
               end
           | _, _ => throw (newError (lit "Session expired. Please log in again."))
           end)
          (fun err =>
             console_error "Error saving entry:" err ;;
             setError (Some (messageOr "Failed to save entry" err))))
       (setSaving false)).

(** [handleDeleteEntry]: [confirm] first, then the delete; nothing reads
    [session]. *)
Definition handleDeleteEntry (entry_id : jsstring) : M X unit :=
  yes <- ask (window_confirm E (lit "Are you sure you want to delete this entry?")) ;;
  if negb yes then ret tt
  else
    tryCatch
      (err <- request (DeleteEq journal_entries (lit "id") entry_id)
                      (from_delete_eq E journal_entries (lit "id") entry_id) ;;
       match err with
       | Some e => throw e
       | None => loadEntries
       end)
      (fun err => setError (Some (messageOr "Failed to delete entry" err))).

(** What a timer does when it fires. *)
Definition runTimer (cb : TimerCallback) : M X unit :=
  match cb with
  | HideSuccess => setShowSuccess false
  end.

End Handlers.

(** ** A scripted outside world

    Replies fixed in advance; the clock moves by [s_latency] with every
    request, so that [new Date()] after a request is later than before it.
    Its engine words a [TypeError] one way, for an [undefined] value. *)

Record Script := {
  s_getSession : SessionReply;
  s_signIn : option JsError;
  s_signUp : option JsError;
  s_select : SelectReply;
  s_insert : option JsError;
  s_delete : option JsError;
  s_confirm : bool;
  s_clock : Z;
  s_latency : Z
}.

Definition tick (s : Script) : Script :=
  {| s_getSession := s_getSession s; s_signIn := s_signIn s;
     s_signUp := s_signUp s; s_select := s_select s;
     s_insert := s_insert s; s_delete := s_delete s;
     s_confirm := s_confirm s; s_clock := s_clock s + s_latency s;
     s_latency := s_latency s |}.

Definition scripted : Env Script :=
  {| auth_getSession := fun s => (s_getSession s, tick s);
     auth_signInWithPassword := fun _ _ s => (s_signIn s, tick s);
     auth_signUp := fun _ _ s => (s_signUp s, tick s);
     auth_signOut := tick;
     from_select_order := fun _ _ _ _ s => (s_select s, tick s);
     from_insert := fun _ _ s => (s_insert s, tick s);
     from_delete_eq := fun _ _ _ s => (s_delete s, tick s);
     window_confirm := fun _ s => (s_confirm s, s);
     date_now := s_clock;
     typeError_message := fun prop _ =>
       lit "Cannot read properties of undefined (reading '" ++ prop ++ lit "')" |}.

Definition start {X} (st : AppState) (x : X) : World X :=
  {| react := st; outside := x; calls := []; console := []; timers := [] |}.

(** ** Running a handler *)

Definition after {X A} (m : M X A) (w : World X) : World X := snd (m w).

Definition outcome {X A} (m : M X A) (w : World X) : Result A := fst (m w).

(** The reply to the session re-check of [handleSaveEntry] run in [w], and
    the outside once it has replied. *)
Definition recheck {X} (E : Env X) (w : World X) : SessionReply :=
  fst (auth_getSession E (outside w)).

Definition after_recheck {X} (E : Env X) (w : World X) : X :=
  snd (auth_getSession E (outside w)).

Definition recheck_valid (r : SessionReply) : bool :=
  match sessionError r, data_session r with
  | None, Some _ => true
  | _, _ => false
  end.

(** The row [handleSaveEntry] builds in [w] for the re-checked user [u]. *)
Definition new_entry {X} (E : Env X) (w : World X) (u : User) : NewEntry :=
  {| new_user_id := user_id_of u;
     new_content := currentEntry (react w);
     new_created_at := toISOString (date_now E (after_recheck E w)) |}.

Definition insert_reply {X} (E : Env X) (w : World X) (u : User) : option JsError :=
  fst (from_insert E journal_entries [new_entry E w u] (after_recheck E w)).

Definition after_insert {X} (E : Env X) (w : World X) (u : User) : X :=
  snd (from_insert E journal_entries [new_entry E w u] (after_recheck E w)).

Definition select_call : Call :=
  SelectOrder journal_entries (lit "*") (lit "created_at") false.

Definition select_reply {X} (E : Env X) (x : X) : SelectReply :=
  fst (from_select_order E journal_entries (lit "*") (lit "created_at") false x).

Definition delete_reply {X} (E : Env X) (entry_id : jsstring) (x : X) : option JsError :=
  fst (from_delete_eq E journal_entries (lit "id") entry_id x).

Definition confirm_reply {X} (E : Env X) (w : World X) : bool :=
  fst (window_confirm E (lit "Are you sure you want to delete this entry?") (outside w)).

Definition after_confirm {X} (E : Env X) (w : World X) : X :=
  snd (window_confirm E (lit "Are you sure you want to delete this entry?") (outside w)).

(** ** Worlds and log lines the handlers reach *)

Section Reached.

Context {X : Type} (E : Env X).

Definition load_failed_line (e : JsError) : LogLine :=
  {| log_label := lit "Error loading entries:"; log_value := e |}.

Definition save_failed_line (e : JsError) : LogLine :=
  {| log_label := lit "Error saving entry:"; log_value := e |}.

Definition database_line (e : JsError) : LogLine :=
  {| log_label := lit "Database error:"; log_value := e |}.

Definition sessionExpired : JsError :=
  newError (lit "Session expired. Please log in again.").

(** The world in which the refresh of a successful save starts. *)
Definition saved (w : World X) (u : User) : World X :=
  {| react := with_showSuccess true
                (with_currentEntry []
                   (with_error None (with_saving true (react w))));
     outside := after_insert E w u;
     calls := calls w ++ [GetSession; Insert journal_entries [new_entry E w u]];
     console := console w;
     timers := timers w ++ [{| delay_ms := 3000; callback := HideSuccess |}] |}.

Definition delete_call (entry_id : jsstring) : Call :=
  DeleteEq journal_entries (lit "id") entry_id.

Definition after_delete (w : World X) (entry_id : jsstring) : X :=
  snd (from_delete_eq E journal_entries (lit "id") entry_id (after_confirm E w)).

(** The world in which the refresh of a successful delete starts. *)
Definition deleted (w : World X) (entry_id : jsstring) : World X :=
  {| react := react w; outside := after_delete w entry_id;
     calls := calls w ++ [delete_call entry_id];
     console := console w; timers := timers w |}.

End Reached.

(** ** Sample data *)

Definition alice : User := {| user_id_of := lit "u-alice" |}.

Definition aliceSession : Session :=
  {| user := Some alice; access_token := lit "token-1" |}.

Definition entry1 : JournalEntry :=
  {| id := lit "e1"; content := lit "Today was good.";
     created_at := lit "2023-11-14T22:13:20.163Z"; user_id := lit "u-alice" |}.

Definition entry0 : JournalEntry :=
  {| id := lit "e0"; content := lit "First note";
     created_at := lit "2023-11-13T08:00:00.000Z"; user_id := lit "u-alice" |}.

(** Signed in as [alice], [text] in the composer, [es] in the feed. *)
Definition signedIn (text : jsstring) (es : list JournalEntry) : AppState :=
  {| session := Some aliceSession; loading := false; email := [];
     password := []; showPassword := false; isLogin := true;
     authError := None; currentEntry := text; entries := es;
     saving := false; error := None; showSuccess := false |}.

Definition signedOut (text : jsstring) (es : list JournalEntry) : AppState :=
  with_session None (signedIn text es).

(** A backend on which everything succeeds. *)
Definition healthy : Script :=
  {| s_getSession := {| data_session := Some aliceSession; sessionError := None |};
     s_signIn := None; s_signUp := None;
     s_select := {| data := Some [entry1; entry0]; selectError := None |};
     s_insert := None; s_delete := None; s_confirm := true;
     s_clock := 1700000000123; s_latency := 40 |}.

(** What the backend replies when a request fails: a plain object parsed
    from the response body, not an [Error] instance. *)
Definition plainError (msg : string) : JsError :=
  {| instanceofError := false; message := lit msg |}.

Definition with_getSession (r : SessionReply) (s : Script) : Script :=
  {| s_getSession := r; s_signIn := s_signIn s; s_signUp := s_signUp s;
     s_select := s_select s; s_insert := s_insert s; s_delete := s_delete s;
     s_confirm := s_confirm s; s_clock := s_clock s;
     s_latency := s_latency s |}.

Definition with_select (r : SelectReply) (s : Script) : Script :=
  {| s_getSession := s_getSession s; s_signIn := s_signIn s;
     s_signUp := s_signUp s; s_select := r; s_insert := s_insert s;
     s_delete := s_delete s; s_confirm := s_confirm s; s_clock := s_clock s;
     s_latency := s_latency s |}.

Definition with_insert (r : option JsError) (s : Script) : Script :=
  {| s_getSession := s_getSession s; s_signIn := s_signIn s;
     s_signUp := s_signUp s; s_select := s_select s; s_insert := r;
     s_delete := s_delete s; s_confirm := s_confirm s; s_clock := s_clock s;
     s_latency := s_latency s |}.

Definition with_delete (r : option JsError) (s : Script) : Script :=
  {| s_getSession := s_getSession s; s_signIn := s_signIn s;
     s_signUp := s_signUp s; s_select := s_select s; s_insert := s_insert s;
     s_delete := r; s_confirm := s_confirm s; s_clock := s_clock s;
     s_latency := s_latency s |}.

Definition with_confirm (b : bool) (s : Script) : Script :=
  {| s_getSession := s_getSession s; s_signIn := s_signIn s;
     s_signUp := s_signUp s; s_select := s_select s; s_insert := s_insert s;
     s_delete := s_delete s; s_confirm := b; s_clock := s_clock s;
     s_latency := s_latency s |}.

Definition selectFails : SelectReply :=
  {| data := None; selectError := Some (plainError "connection reset") |}.

Definition noSession : SessionReply :=
  {| data_session := None; sessionError := None |}.

Definition bob : User := {| user_id_of := lit "u-bob" |}.

Definition bobSession : Session :=
  {| user := Some bob; access_token := lit "token-2" |}.

Definition duplicateKey : JsError :=
  plainError "duplicate key value violates unique constraint".

(** The refresh after a save, with the list query failing. *)
Definition refreshFails : World Script :=
  start (signedIn (lit "Dear diary") [entry0]) (with_select selectFails healthy).

(** A save whose insert throws inside the client. *)
Definition networkDown : World Script :=
  start (signedIn (lit "Dear diary") [entry0])
    (with_insert (Some (newError (lit "Network down"))) healthy).

(** A save whose insert the backend rejects. *)
Definition insertRejected : World Script :=
  start (signedIn (lit "Dear diary") [entry0])
    (with_insert (Some duplicateKey) healthy).

(** A delete that the backend refuses. *)
Definition deleteRefused : World Script :=
  start (signedIn [] [entry1; entry0])
    (with_delete (Some (newError (lit "permission denied"))) healthy).

(** ** The view and its inline handlers

    What [App] returns, as far as the state decides it: which of the three
    screens, whether the save button is disabled, which banners show; and
    the mode switch written in the markup. *)

Definition with_isLogin (v : bool) (s : AppState) : AppState :=
  {| session := session s; loading := loading s; email := email s;
     password := password s; showPassword := showPassword s;
     isLogin := v; authError := authError s;
     currentEntry := currentEntry s; entries := entries s;
     saving := saving s; error := error s; showSuccess := showSuccess s |}.

Definition setIsLogin {X} v : M X unit := setState (with_isLogin v).

(** [onClick={() => { setIsLogin(!isLogin); setAuthError(null); }}] *)
Definition onClick_switchMode {X} : M X unit :=
  st <- rendered ;;
  setIsLogin (negb (isLogin st)) ;;
  setAuthError None.

(** The three [return]s of [App]: [if (loading)], [if (!session)], else. *)
Inductive Screen := LoadingScreen | AuthScreen | JournalScreen.

Definition screen (st : AppState) : Screen :=
  if loading st then LoadingScreen
  else match session st with
       | None => AuthScreen
       | Some _ => JournalScreen
       end.

(** [disabled={saving || !currentEntry.trim()}] *)
Definition saveButton_disabled (st : AppState) : bool :=
  saving st || negb (truthy_string (trim (currentEntry st))).

(** [{error && (...)}]: [null] and the empty string render nothing. *)
Definition errorBanner (st : AppState) : option jsstring :=
  match error st with
  | Some (c :: m) => Some (c :: m)
  | _ => None
  end.

(** [{authError && (...)}] *)
Definition authBanner (st : AppState) : option jsstring :=
  match authError st with
  | Some (c :: m) => Some (c :: m)
  | _ => None
  end.

(** The cells [handleAuth] and the auth form leave alone. *)
Definition same_journal (a b : AppState) : Prop :=
  session a = session b /\ loading a = loading b
  /\ currentEntry a = currentEntry b /\ entries a = entries b
  /\ saving a = saving b /\ error a = error b
  /\ showSuccess a = showSuccess b.

(** The cells of the auth form. *)
Definition same_form (a b : AppState) : Prop :=
  email a = email b /\ password a = password b
  /\ showPassword a = showPassword b /\ isLogin a = isLogin b
  /\ authError a = authError b.

(** More sample data. *)

Definition signUpForm : AppState :=
  {| session := None; loading := false; email := lit "user@example.com";
     password := lit "pw123456"; showPassword := false; isLogin := false;
     authError := Some (lit "Invalid login credentials");
     currentEntry := []; entries := []; saving := false; error := None;
     showSuccess := false |}.

Definition signInForm : AppState := with_isLogin true signUpForm.

Definition with_signIn (r : option JsError) (s : Script) : Script :=
  {| s_getSession := s_getSession s; s_signIn := r; s_signUp := s_signUp s;
     s_select := s_select s; s_insert := s_insert s; s_delete := s_delete s;
     s_confirm := s_confirm s; s_clock := s_clock s;
     s_latency := s_latency s |}.

Definition userlessSession : Session :=
  {| user := None; access_token := lit "token-3" |}.

(** The re-check returns a session object that has no [user]. *)
Definition recheckUserless : World Script :=
  start (signedIn (lit "Dear diary") [entry0])
    (with_getSession
       {| data_session := Some userlessSession; sessionError := None |}
       healthy).

(** An [Error] with an empty message. *)
Definition silentError : JsError := newError [].

(** The world a guard of [handleSaveEntry] leaves behind. *)
Definition refused {X} (msg : string) (w : World X) : World X :=
  {| react := with_error (Some (lit msg)) (react w); outside := outside w;
     calls := calls w; console := console w; timers := timers w |}.

(** The world the [catch] and [finally] of [handleSaveEntry] leave behind
    when [e] was thrown after the requests [cs], with [logged] already on
    the console. *)
Definition aborted {X} (w : World X) (e : JsError) (x : X) (cs : list Call)
    (logged : list LogLine) : World X :=
  {| react := with_saving false
                (with_error (Some (messageOr "Failed to save entry" e))
                   (with_error None (with_saving true (react w))));
     outside := x; calls := calls w ++ cs;
     console := console w ++ logged ++ [save_failed_line e];
     timers := timers w |}.

(** The replies [handleAuth] run in [w] gets. *)
Definition signIn_reply {X} (E : Env X) (w : World X) : option JsError :=
  fst (auth_signInWithPassword E (email (react w)) (password (react w))
         (outside w)).

Definition signUp_reply {X} (E : Env X) (w : World X) : option JsError :=
  fst (auth_signUp E (email (react w)) (password (react w)) (outside w)).

(** The request [handleAuth] run in [w] makes. *)
Definition auth_call {X} (w : World X) : Call :=
  if isLogin (react w)
  then SignInWithPassword (email (react w)) (password (react w))
  else SignUp (email (react w)) (password (react w)).

(** A save whose insert fails with an [Error] of empty message. *)
Definition insertSilent : World Script :=
  start (signedIn (lit "Dear diary") [entry0])
    (with_insert (Some silentError) healthy).

Ltac unfold_js :=
  unfold after, outcome, insert_reply, after_insert, new_entry,
    recheck, after_recheck, select_reply, delete_reply, confirm_reply,
    after_confirm, select_call,
    handleSaveEntry, handleDeleteEntry, handleSignOut, handleAuth,
    absentUser_error,
    useEffect_mount, getSession_then, onAuthStateChange_handler,
    loadEntries, runTimer, newDate, notify, request, ask,
    setSession, setLoading, setAuthError, setCurrentEntry, setEntries,
    setSaving, setError, setShowSuccess, setState, console_error,
    setTimeout, rendered, tryFinally, tryCatch, throw, bind, ret in *.

(** * Properties *)

Example toISOString_epoch : toISOString 0 = lit "1970-01-01T00:00:00.000Z".
Proof. reflexivity. Qed.

Example toISOString_2023 :
  toISOString 1700000000123 = lit "2023-11-14T22:13:20.123Z".
Proof. vm_compute. reflexivity. Qed.

Example toISOString_leap :
  toISOString 951782400000 = lit "2000-02-29T00:00:00.000Z".
Proof. vm_compute. reflexivity. Qed.

Example toISOString_before_epoch :
  toISOString (-1) = lit "1969-12-31T23:59:59.999Z".
Proof. vm_compute. reflexivity. Qed.

(** ** Facts about [trim] *)

Lemma trimStart_nil_iff (s : jsstring) :
  trimStart s = [] <-> forallb isWhiteSpace s = true.
Proof.
  induction s as [|c r IH]; simpl.
  - tauto.
  - destruct (isWhiteSpace c); simpl.
    + exact IH.
    + split; discriminate.
Qed.

Lemma trimStart_all (s : jsstring) :
  forallb isWhiteSpace (trimStart s) = true -> trimStart s = [].
Proof.
  induction s as [|c r IH]; simpl; auto.
  destruct (isWhiteSpace c) eqn:Hc; auto.
  simpl. rewrite Hc. discriminate.
Qed.

Lemma forallb_rev {A} (f : A -> bool) (l : list A) :
  forallb f (rev l) = forallb f l.
Proof.
  induction l as [|a l IH]; simpl; auto.
  rewrite forallb_app, IH. simpl. rewrite andb_true_r. apply andb_comm.
Qed.

(** [trim] leaves nothing exactly when every code unit is white space. *)
Lemma trim_nil_iff (s : jsstring) :
  trim s = [] <-> forallb isWhiteSpace s = true.
Proof.
  unfold trim, trimEnd. split; intro H.
  - apply trimStart_nil_iff, trimStart_all.
    rewrite <- forallb_rev. apply trimStart_nil_iff.
    apply (f_equal (@rev N)) in H. rewrite rev_involutive in H. exact H.
  - apply trimStart_nil_iff in H. rewrite H. reflexivity.
Qed.

Lemma truthy_trim_true (s : jsstring) :
  trim s <> [] -> truthy_string (trim s) = true.
Proof. destruct (trim s); [congruence | reflexivity]. Qed.

Example trim_blank : trim (lit "   ") = [].
Proof. reflexivity. Qed.

Example trim_inner : trim (lit "  a b  ") = lit "a b".
Proof. reflexivity. Qed.

(** ** What each handler does to the world, path by path *)

Section Paths.

Context {X : Type} (E : Env X).

Lemma loadEntries_failed (w : World X) (e : JsError) :
  selectError (select_reply E (outside w)) = Some e ->
  after (loadEntries E) w =
    {| react := react w;
       outside := snd (from_select_order E journal_entries (lit "*")
                         (lit "created_at") false (outside w));
       calls := calls w ++ [select_call];
       console := console w ++ [load_failed_line e];
       timers := timers w |}.
Proof.
  unfold_js.
  destruct (from_select_order E _ _ _ _ (outside w)) as [r x1]; simpl.
  intros ->. reflexivity.
Qed.

Lemma loadEntries_ok (w : World X) :
  selectError (select_reply E (outside w)) = None ->
  after (loadEntries E) w =
    {| react := with_entries
                  (match data (select_reply E (outside w)) with
                   | Some d => d
                   | None => []
                   end) (react w);
       outside := snd (from_select_order E journal_entries (lit "*")
                         (lit "created_at") false (outside w));
       calls := calls w ++ [select_call];
       console := console w;
       timers := timers w |}.
Proof.
  unfold_js.
  destruct (from_select_order E _ _ _ _ (outside w)) as [r x1]; simpl.
  intros ->. reflexivity.
Qed.

(** [loadEntries] catches what it throws. *)
Lemma loadEntries_returns (w : World X) :
  outcome (loadEntries E) w = Ok tt.
Proof.
  unfold_js.
  destruct (from_select_order E _ _ _ _ (outside w)) as [r x1]; simpl.
  destruct (selectError r); reflexivity.
Qed.

Lemma loadEntries_calls (w : World X) :
  calls (after (loadEntries E) w) = calls w ++ [select_call].
Proof.
  destruct (selectError (select_reply E (outside w))) eqn:H.
  - rewrite (loadEntries_failed w j H). reflexivity.
  - rewrite (loadEntries_ok w H). reflexivity.
Qed.

Lemma loadEntries_keeps (w : World X) :
  let r := react (after (loadEntries E) w) in
  error r = error (react w) /\ currentEntry r = currentEntry (react w)
  /\ showSuccess r = showSuccess (react w) /\ saving r = saving (react w)
  /\ session r = session (react w)
  /\ timers (after (loadEntries E) w) = timers w.
Proof.
  destruct (selectError (select_reply E (outside w))) eqn:H.
  - rewrite (loadEntries_failed w j H). simpl. tauto.
  - rewrite (loadEntries_ok w H). simpl. tauto.
Qed.

(** The refresh and [setSaving] write different cells: their order does
    not matter. *)
Lemma loadEntries_setSaving_commute (v : bool) (w : World X) :
  after (setSaving v) (after (loadEntries E) w)
  = after (loadEntries E) (after (setSaving v) w).
Proof.
  unfold_js. simpl.
  destruct (from_select_order E _ _ _ _ (outside w)) as [r x1]; simpl.
  destruct (selectError r); reflexivity.
Qed.

Lemma save_without_user (w : World X) :
  has_user (session (react w)) = false ->
  handleSaveEntry E w =
    (Ok tt,
     {| react := with_error
                   (Some (lit "You must be logged in to save entries"))
                   (react w);
        outside := outside w; calls := calls w; console := console w;
        timers := timers w |}).
Proof. unfold_js. intros ->. reflexivity. Qed.

Lemma save_blank (w : World X) :
  has_user (session (react w)) = true ->
  trim (currentEntry (react w)) = [] ->
  handleSaveEntry E w =
    (Ok tt,
     {| react := with_error (Some (lit "Entry cannot be empty")) (react w);
        outside := outside w; calls := calls w; console := console w;
        timers := timers w |}).
Proof. unfold_js. intros -> ->. reflexivity. Qed.

Lemma save_expired (w : World X) :
  has_user (session (react w)) = true ->
  trim (currentEntry (react w)) <> [] ->
  recheck_valid (recheck E w) = false ->
  handleSaveEntry E w =
    (Ok tt,
     {| react := with_saving false
                   (with_error (Some (message sessionExpired))
                      (with_error None (with_saving true (react w))));
        outside := after_recheck E w;
        calls := calls w ++ [GetSession];
        console := console w ++ [save_failed_line sessionExpired];
        timers := timers w |}).
Proof.
  intros Hu Ht Hr. apply truthy_trim_true in Ht.
  unfold_js. rewrite Hu, Ht. simpl.
  destruct (auth_getSession E (outside w)) as [r x1]; simpl in *.
  unfold recheck_valid in Hr.
  destruct (sessionError r); [reflexivity|].
  destruct (data_session r); [discriminate|reflexivity].
Qed.

Lemma save_user_missing (w : World X) (cs : Session) :
  has_user (session (react w)) = true ->
  trim (currentEntry (react w)) <> [] ->
  sessionError (recheck E w) = None ->
  data_session (recheck E w) = Some cs ->
  user cs = None ->
  handleSaveEntry E w =
    (Ok tt,
     {| react := with_saving false
                   (with_error (Some (message (absentUser_error E (after_recheck E w))))
                      (with_error None (with_saving true (react w))));
        outside := after_recheck E w;
        calls := calls w ++ [GetSession];
        console := console w
                   ++ [save_failed_line (absentUser_error E (after_recheck E w))];
        timers := timers w |}).
Proof.
  intros Hu Ht He Hd Hn. apply truthy_trim_true in Ht.
  unfold_js. rewrite Hu, Ht. simpl.
  destruct (auth_getSession E (outside w)) as [r x1]; simpl in *.
  rewrite He, Hd, Hn. reflexivity.
Qed.

Lemma save_insert_failed (w : World X) (cs : Session) (u : User) (e : JsError) :
  has_user (session (react w)) = true ->
  trim (currentEntry (react w)) <> [] ->
  sessionError (recheck E w) = None ->
  data_session (recheck E w) = Some cs ->
  user cs = Some u ->
  insert_reply E w u = Some e ->
  handleSaveEntry E w =
    (Ok tt,
     {| react := with_saving false
                   (with_error (Some (messageOr "Failed to save entry" e))
                      (with_error None (with_saving true (react w))));
        outside := after_insert E w u;
        calls := calls w ++ [GetSession; Insert journal_entries [new_entry E w u]];
        console := console w ++ [database_line e; save_failed_line e];
        timers := timers w |}).
Proof.
  intros Hu Ht He Hd Hn Hi. apply truthy_trim_true in Ht.
  unfold_js. rewrite Hu, Ht. simpl.
  destruct (auth_getSession E (outside w)) as [r x1]; simpl in *.
  rewrite He, Hd, Hn. simpl.
  destruct (from_insert E _ _ x1) as [ie x2]; simpl in *.
  rewrite Hi. simpl. rewrite <- !app_assoc. reflexivity.
Qed.

Lemma save_ok (w : World X) (cs : Session) (u : User) :
  has_user (session (react w)) = true ->
  trim (currentEntry (react w)) <> [] ->
  sessionError (recheck E w) = None ->
  data_session (recheck E w) = Some cs ->
  user cs = Some u ->
  insert_reply E w u = None ->
  handleSaveEntry E w =
    (Ok tt, after (setSaving false) (after (loadEntries E) (saved E w u))).
Proof.
  intros Hu Ht He Hd Hn Hi. apply truthy_trim_true in Ht.
  unfold saved.
  unfold_js. rewrite Hu, Ht. simpl.
  destruct (auth_getSession E (outside w)) as [r x1]; simpl in *.
  rewrite He, Hd, Hn. simpl.
  destruct (from_insert E _ _ x1) as [ie x2]; simpl in *.
  rewrite Hi. simpl. rewrite <- !app_assoc. simpl.
  destruct (from_select_order E _ _ _ _ x2) as [sr x3]; simpl.
  destruct (selectError sr); reflexivity.
Qed.

End Paths.

Section DeletePaths.

Context {X : Type} (E : Env X).

Lemma delete_declined (w : World X) (entry_id : jsstring) :
  confirm_reply E w = false ->
  handleDeleteEntry E entry_id w =
    (Ok tt,
     {| react := react w; outside := after_confirm E w; calls := calls w;
        console := console w; timers := timers w |}).
Proof.
  unfold_js.
  destruct (window_confirm E _ (outside w)) as [b x1]; simpl.
  intros ->. reflexivity.
Qed.

Lemma delete_failed (w : World X) (entry_id : jsstring) (e : JsError) :
  confirm_reply E w = true ->
  delete_reply E entry_id (after_confirm E w) = Some e ->
  handleDeleteEntry E entry_id w =
    (Ok tt,
     {| react := with_error (Some (messageOr "Failed to delete entry" e))
                   (react w);
        outside := after_delete E w entry_id;
        calls := calls w ++ [delete_call entry_id];
        console := console w; timers := timers w |}).
Proof.
  unfold after_delete, delete_call. unfold_js.
  destruct (window_confirm E _ (outside w)) as [b x1]; simpl.
  intros ->; simpl.
  destruct (from_delete_eq E _ _ _ x1) as [de x2]; simpl.
  intros ->. reflexivity.
Qed.

Lemma delete_ok (w : World X) (entry_id : jsstring) :
  confirm_reply E w = true ->
  delete_reply E entry_id (after_confirm E w) = None ->
  handleDeleteEntry E entry_id w =
    (Ok tt, after (loadEntries E) (deleted E w entry_id)).
Proof.
  unfold deleted, after_delete, delete_call. unfold_js.
  destruct (window_confirm E _ (outside w)) as [b x1]; simpl.
  intros ->; simpl.
  destruct (from_delete_eq E _ _ _ x1) as [de x2]; simpl.
  intros ->. simpl.
  destruct (from_select_order E _ _ _ _ x2) as [sr x3]; simpl.
  destruct (selectError sr); reflexivity.
Qed.

End DeletePaths.

Section SessionPaths.

Context {X : Type} (E : Env X).

Lemma authChange_absent (ev : jsstring) (w : World X) :
  onAuthStateChange_handler E ev None w =
    (Ok tt,
     {| react := with_session None (react w); outside := outside w;
        calls := calls w; console := console w; timers := timers w |}).
Proof. reflexivity. Qed.

Lemma authChange_present (ev : jsstring) (s : Session) (w : World X) :
  onAuthStateChange_handler E ev (Some s) w =
    (Ok tt,
     after (loadEntries E)
       {| react := with_session (Some s) (react w); outside := outside w;
          calls := calls w; console := console w; timers := timers w |}).
Proof.
  unfold_js. simpl.
  destruct (from_select_order E _ _ _ _ (outside w)) as [sr x1]; simpl.
  destruct (selectError sr); reflexivity.
Qed.

Lemma mount_present (s : Session) (w : World X) :
  data_session (recheck E w) = Some s ->
  useEffect_mount E w =
    (Ok tt,
     after (loadEntries E)
       {| react := with_loading false (with_session (Some s) (react w));
          outside := after_recheck E w;
          calls := calls w ++ [GetSession; OnAuthStateChange];
          console := console w; timers := timers w |}).
Proof.
  unfold_js.
  destruct (auth_getSession E (outside w)) as [r x1]; simpl.
  intros ->. simpl. rewrite <- !app_assoc. simpl.
  destruct (from_select_order E _ _ _ _ x1) as [sr x2]; simpl.
  destruct (selectError sr); reflexivity.
Qed.

Lemma mount_absent (w : World X) :
  data_session (recheck E w) = None ->
  useEffect_mount E w =
    (Ok tt,
     {| react := with_loading false (with_session None (react w));
        outside := after_recheck E w;
        calls := calls w ++ [GetSession; OnAuthStateChange];
        console := console w; timers := timers w |}).
Proof.
  unfold_js.
  destruct (auth_getSession E (outside w)) as [r x1]; simpl.
  intros ->. simpl. rewrite <- !app_assoc. reflexivity.
Qed.

Lemma signOut_clears (w : World X) :
  handleSignOut E w =
    (Ok tt,
     {| react := with_currentEntry [] (with_entries [] (react w));
        outside := auth_signOut E (outside w);
        calls := calls w ++ [SignOut];
        console := console w; timers := timers w |}).
Proof. reflexivity. Qed.

End SessionPaths.

(** A whole save on the healthy backend: the row, the trace, the state. *)
Example save_healthy :
  handleSaveEntry scripted (start (signedIn (lit " Today was good. ") [entry0]) healthy)
  = (Ok tt,
     {| react := with_showSuccess true (signedIn [] [entry1; entry0]);
        outside := tick (tick (tick healthy));
        calls := [GetSession;
                  Insert journal_entries
                    [{| new_user_id := lit "u-alice";
                        new_content := lit " Today was good. ";
                        new_created_at := lit "2023-11-14T22:13:20.163Z" |}];
                  select_call];
        console := [];
        timers := [{| delay_ms := 3000; callback := HideSuccess |}] |}).
Proof. vm_compute. reflexivity. Qed.

(** First render, then the mount effect on a backend with a live session. *)
Example mount_restores_session :
  after (useEffect_mount scripted) (start initialState healthy)
  = {| react := with_entries [entry1; entry0]
                  (with_loading false
                     (with_session (Some aliceSession) initialState));
       outside := tick (tick healthy);
       calls := [GetSession; OnAuthStateChange; select_call];
       console := []; timers := [] |}.
Proof. vm_compute. reflexivity. Qed.

Example mount_without_session :
  after (useEffect_mount scripted)
    (start initialState (with_getSession noSession healthy))
  = {| react := with_loading false initialState;
       outside := tick (with_getSession noSession healthy);
       calls := [GetSession; OnAuthStateChange];
       console := []; timers := [] |}.
Proof. vm_compute. reflexivity. Qed.

(** Sign-up asks for the confirmation step and opens no session. *)
Example signUp_pending :
  react (after (handleAuth scripted)
           (start {| session := None; loading := false;
                     email := lit "user@example.com";
                     password := lit "pw123456"; showPassword := false;
                     isLogin := false; authError := None;
                     currentEntry := []; entries := []; saving := false;
                     error := None; showSuccess := false |} healthy))
  = {| session := None; loading := false;
       email := lit "user@example.com";
       password := lit "pw123456"; showPassword := false;
       isLogin := false;
       authError := Some (lit "Check your email for the confirmation link!");
       currentEntry := []; entries := []; saving := false;
       error := None; showSuccess := false |}.
Proof. vm_compute. reflexivity. Qed.

Lemma after_setSaving {X} (v : bool) (w : World X) :
  after (setSaving v) w
  = {| react := with_saving v (react w); outside := outside w;
       calls := calls w; console := console w; timers := timers w |}.
Proof. reflexivity. Qed.

(** ** The claims *)

Lemma has_user_false_iff (s : option Session) :
  has_user s = false <-> s = None \/ exists s', s = Some s' /\ user s' = None.
Proof.
  destruct s as [[[u|] t]|]; simpl; split; intro H; try discriminate; auto.
  - destruct H as [H | (s' & H & Hu)]; [discriminate|].
    injection H as <-. discriminate.
  - right. eexists. split; reflexivity.
Qed.

(** C1. With a composer content whose [trim()] is empty, [handleSaveEntry]
    returns having set an error message ('Entry cannot be empty', or the
    not-logged-in message when the session check fails first), issues no
    backend call of any kind, leaves the outside world untouched, and leaves
    the entry list and every other state cell as they were. *)
Theorem C1_saveEntry_blank_content {X} (E : Env X) (w : World X) :
  trim (currentEntry (react w)) = [] ->
  outcome (handleSaveEntry E) w = Ok tt
  /\ error (react (after (handleSaveEntry E) w))
     = Some (if has_user (session (react w))
             then lit "Entry cannot be empty"
             else lit "You must be logged in to save entries")
  /\ calls (after (handleSaveEntry E) w) = calls w
  /\ outside (after (handleSaveEntry E) w) = outside w
  /\ entries (react (after (handleSaveEntry E) w)) = entries (react w).
Proof.
  intro Ht. unfold after, outcome.
  destruct (has_user (session (react w))) eqn:Hu.
  - rewrite (save_blank E w Hu Ht). simpl. tauto.
  - rewrite (save_without_user E w Hu). simpl. tauto.
Qed.

Lemma C1_saveEntry_blank_content_witness :
  trim (currentEntry (react (start (signedIn (lit "   ") [entry0]) healthy))) = []
  /\ outcome (handleSaveEntry scripted)
       (start (signedIn (lit "   ") [entry0]) healthy) = Ok tt
  /\ error (react (after (handleSaveEntry scripted)
                     (start (signedIn (lit "   ") [entry0]) healthy)))
     = Some (lit "Entry cannot be empty")
  /\ calls (after (handleSaveEntry scripted)
              (start (signedIn (lit "   ") [entry0]) healthy)) = []
  /\ outside (after (handleSaveEntry scripted)
                (start (signedIn (lit "   ") [entry0]) healthy)) = healthy
  /\ entries (react (after (handleSaveEntry scripted)
                       (start (signedIn (lit "   ") [entry0]) healthy)))
     = [entry0].
Proof.
  split; [reflexivity|].
  exact (C1_saveEntry_blank_content scripted
           (start (signedIn (lit "   ") [entry0]) healthy) eq_refl).
Defined.

(** C2. With no session, or a session without a user, [handleSaveEntry]
    sets the message 'You must be logged in to save entries' whatever the
    composer holds, and issues no backend call, so no insert. *)
Theorem C2_saveEntry_without_session {X} (E : Env X) (w : World X) :
  has_user (session (react w)) = false ->
  outcome (handleSaveEntry E) w = Ok tt
  /\ error (react (after (handleSaveEntry E) w))
     = Some (lit "You must be logged in to save entries")
  /\ calls (after (handleSaveEntry E) w) = calls w
  /\ outside (after (handleSaveEntry E) w) = outside w.
Proof.
  intro Hu. unfold after, outcome.
  rewrite (save_without_user E w Hu). simpl. tauto.
Qed.

Lemma C2_saveEntry_without_session_witness :
  has_user (session (react (start (signedOut (lit "Dear diary") []) healthy)))
  = false
  /\ outcome (handleSaveEntry scripted)
       (start (signedOut (lit "Dear diary") []) healthy) = Ok tt
  /\ error (react (after (handleSaveEntry scripted)
                     (start (signedOut (lit "Dear diary") []) healthy)))
     = Some (lit "You must be logged in to save entries")
  /\ calls (after (handleSaveEntry scripted)
              (start (signedOut (lit "Dear diary") []) healthy)) = []
  /\ outside (after (handleSaveEntry scripted)
                (start (signedOut (lit "Dear diary") []) healthy)) = healthy.
Proof.
  split; [reflexivity|].
  exact (C2_saveEntry_without_session scripted
           (start (signedOut (lit "Dear diary") []) healthy) eq_refl).
Defined.

(** C3. Past the two checks, the first thing [handleSaveEntry] sends is a
    [getSession] request; when its reply carries an error or no session the
    handler sets 'Session expired. Please log in again.', and that request is
    the only one it sent: no insert. *)
Theorem C3_saveEntry_rechecks_session {X} (E : Env X) (w : World X) :
  has_user (session (react w)) = true ->
  trim (currentEntry (react w)) <> [] ->
  (exists rest, calls (after (handleSaveEntry E) w)
                = calls w ++ GetSession :: rest)
  /\ (recheck_valid (recheck E w) = false ->
      error (react (after (handleSaveEntry E) w))
      = Some (lit "Session expired. Please log in again.")
      /\ calls (after (handleSaveEntry E) w) = calls w ++ [GetSession]
      /\ entries (react (after (handleSaveEntry E) w)) = entries (react w)).
Proof.
  intros Hu Ht. split.
  - unfold after.
    destruct (recheck_valid (recheck E w)) eqn:Hv.
    + unfold recheck_valid in Hv.
      destruct (sessionError (recheck E w)) eqn:He; [discriminate|].
      destruct (data_session (recheck E w)) as [cs|] eqn:Hd; [|discriminate].
      destruct (user cs) as [u|] eqn:Hcu.
      * destruct (insert_reply E w u) as [e|] eqn:Hi.
        -- rewrite (save_insert_failed E w cs u e Hu Ht He Hd Hcu Hi).
           simpl. eexists. reflexivity.
        -- rewrite (save_ok E w cs u Hu Ht He Hd Hcu Hi).
           unfold after at 1, setSaving, setState. simpl.
           rewrite loadEntries_calls. simpl.
           rewrite <- app_assoc. simpl. eexists. reflexivity.
      * rewrite (save_user_missing E w cs Hu Ht He Hd Hcu).
        simpl. exists []. reflexivity.
    + rewrite (save_expired E w Hu Ht Hv). simpl. exists []. reflexivity.
  - intro Hv. unfold after.
    rewrite (save_expired E w Hu Ht Hv). simpl. tauto.
Qed.

Lemma C3_saveEntry_rechecks_session_witness :
  has_user (session (react (start (signedIn (lit "Dear diary") [entry0])
                              (with_getSession noSession healthy)))) = true
  /\ trim (currentEntry (react (start (signedIn (lit "Dear diary") [entry0])
                                  (with_getSession noSession healthy)))) <> []
  /\ error (react (after (handleSaveEntry scripted)
                     (start (signedIn (lit "Dear diary") [entry0])
                        (with_getSession noSession healthy))))
     = Some (lit "Session expired. Please log in again.")
  /\ calls (after (handleSaveEntry scripted)
              (start (signedIn (lit "Dear diary") [entry0])
                 (with_getSession noSession healthy))) = [GetSession]
  /\ entries (react (after (handleSaveEntry scripted)
                       (start (signedIn (lit "Dear diary") [entry0])
                          (with_getSession noSession healthy)))) = [entry0].
Proof.
  split; [reflexivity|]. split; [discriminate|].
  exact (proj2 (C3_saveEntry_rechecks_session scripted
                  (start (signedIn (lit "Dear diary") [entry0])
                     (with_getSession noSession healthy))
                  eq_refl
                  (fun H => @eq_ind _ (@nil N)
                              (fun l => match l with [] => True | _ => False end)
                              I _ (eq_sym H)))
               eq_refl).
Defined.

(** C4. With a content that is not empty after trimming and a re-check
    that returns a session with a user, the only insert [handleSaveEntry]
    sends carries one row: [user_id] is the re-checked session's user id
    (not the cached session's), [content] is the composer content exactly as
    typed, and [created_at] is [toISOString] of the clock read after the
    re-check. *)
Theorem C4_saveEntry_inserted_row {X} (E : Env X) (w : World X)
    (cs : Session) (u : User) :
  has_user (session (react w)) = true ->
  trim (currentEntry (react w)) <> [] ->
  sessionError (recheck E w) = None ->
  data_session (recheck E w) = Some cs ->
  user cs = Some u ->
  exists rest,
    calls (after (handleSaveEntry E) w)
    = calls w
      ++ [GetSession;
          Insert journal_entries
            [{| new_user_id := user_id_of u;
                new_content := currentEntry (react w);
                new_created_at :=
                  toISOString (date_now E (after_recheck E w)) |}]]
      ++ rest
    /\ filter is_insert rest = [].
Proof.
  intros Hu Ht He Hd Hcu. unfold after.
  destruct (insert_reply E w u) as [e|] eqn:Hi.
  - rewrite (save_insert_failed E w cs u e Hu Ht He Hd Hcu Hi). simpl.
    exists []. split; [reflexivity|reflexivity].
  - rewrite (save_ok E w cs u Hu Ht He Hd Hcu Hi).
    unfold after at 1, setSaving, setState. simpl.
    rewrite loadEntries_calls. simpl.
    exists [select_call]. split; [|reflexivity].
    rewrite <- app_assoc. reflexivity.
Qed.

Lemma C4_saveEntry_inserted_row_witness :
  has_user (session (react (start (signedIn (lit " Today was good. ") [entry0])
                              healthy))) = true
  /\ trim (currentEntry (react (start (signedIn (lit " Today was good. ") [entry0])
                                  healthy))) <> []
  /\ sessionError (recheck scripted
                     (start (signedIn (lit " Today was good. ") [entry0]) healthy))
     = None
  /\ data_session (recheck scripted
                     (start (signedIn (lit " Today was good. ") [entry0]) healthy))
     = Some aliceSession
  /\ user aliceSession = Some alice
  /\ exists rest,
      calls (after (handleSaveEntry scripted)
               (start (signedIn (lit " Today was good. ") [entry0]) healthy))
      = [] ++ [GetSession;
               Insert journal_entries
                 [{| new_user_id := lit "u-alice";
                     new_content := lit " Today was good. ";
                     new_created_at := lit "2023-11-14T22:13:20.163Z" |}]]
           ++ rest
      /\ filter is_insert rest = [].
Proof.
  split; [reflexivity|]. split; [discriminate|].
  split; [reflexivity|]. split; [reflexivity|]. split; [reflexivity|].
  apply (C4_saveEntry_inserted_row scripted
           (start (signedIn (lit " Today was good. ") [entry0]) healthy)
           aliceSession alice); try reflexivity.
  discriminate.
Defined.

(** The cached session does not decide the owner of the row: the re-checked
    one does. *)
Example save_uses_rechecked_user :
  calls (after (handleSaveEntry scripted)
           (start (signedIn (lit "hi") [])
              (with_getSession
                 {| data_session := Some bobSession; sessionError := None |}
                 healthy)))
  = [GetSession;
     Insert journal_entries
       [{| new_user_id := lit "u-bob"; new_content := lit "hi";
           new_created_at := lit "2023-11-14T22:13:20.163Z" |}];
     select_call].
Proof. vm_compute. reflexivity. Qed.

(** C5, as the code has it.  When the insert fails with [e],
    [handleSaveEntry] sets the error state to [e.message] if [e] is an
    [Error] instance and to 'Failed to save entry' otherwise; the composer
    content, the success flag, the timers and the entry list are as before;
    [saving] is back to false; both failure lines are logged; no refresh is
    sent. *)
Theorem C5_saveEntry_insert_failure {X} (E : Env X) (w : World X)
    (cs : Session) (u : User) (e : JsError) :
  has_user (session (react w)) = true ->
  trim (currentEntry (react w)) <> [] ->
  sessionError (recheck E w) = None ->
  data_session (recheck E w) = Some cs ->
  user cs = Some u ->
  insert_reply E w u = Some e ->
  error (react (after (handleSaveEntry E) w))
  = Some (if instanceofError e then message e else lit "Failed to save entry")
  /\ currentEntry (react (after (handleSaveEntry E) w)) = currentEntry (react w)
  /\ showSuccess (react (after (handleSaveEntry E) w)) = showSuccess (react w)
  /\ timers (after (handleSaveEntry E) w) = timers w
  /\ entries (react (after (handleSaveEntry E) w)) = entries (react w)
  /\ saving (react (after (handleSaveEntry E) w)) = false
  /\ console (after (handleSaveEntry E) w)
     = console w ++ [database_line e; save_failed_line e]
  /\ calls (after (handleSaveEntry E) w)
     = calls w ++ [GetSession; Insert journal_entries [new_entry E w u]].
Proof.
  intros Hu Ht He Hd Hcu Hi. unfold after.
  rewrite (save_insert_failed E w cs u e Hu Ht He Hd Hcu Hi). simpl.
  unfold messageOr. tauto.
Qed.

Lemma C5_saveEntry_insert_failure_witness :
  trim (currentEntry (react networkDown)) <> []
  /\ data_session (recheck scripted networkDown) = Some aliceSession
  /\ insert_reply scripted networkDown alice = Some (newError (lit "Network down"))
  /\ error (react (after (handleSaveEntry scripted) networkDown))
     = Some (lit "Network down")
  /\ currentEntry (react (after (handleSaveEntry scripted) networkDown))
     = lit "Dear diary"
  /\ showSuccess (react (after (handleSaveEntry scripted) networkDown)) = false.
Proof.
  split; [discriminate|]. split; [reflexivity|]. split; [reflexivity|].
  pose proof (C5_saveEntry_insert_failure scripted networkDown
                aliceSession alice (newError (lit "Network down"))
                eq_refl ltac:(discriminate) eq_refl eq_refl eq_refl eq_refl)
    as (H1 & H2 & H3 & _).
  exact (conj H1 (conj H2 H3)).
Defined.

(** C5, as the claim states it, fails: a backend error that is not an
    [Error] instance has its message replaced by 'Failed to save entry'. *)
Lemma C5_backend_message_not_surfaced :
  insert_reply scripted insertRejected alice = Some duplicateKey
  /\ error (react (after (handleSaveEntry scripted) insertRejected))
     = Some (lit "Failed to save entry")
  /\ error (react (after (handleSaveEntry scripted) insertRejected))
     <> Some (message duplicateKey).
Proof.
  split; [reflexivity|]. split; [reflexivity|].
  vm_compute. discriminate.
Qed.

(** C6. When the insert succeeds, [handleSaveEntry] empties the composer,
    raises the success flag, schedules exactly one timer, of 3000 ms, whose
    callback lowers the flag again, and sends the list query after the
    insert; the entry list becomes what that query returns (and stays as it
    was if the query fails). *)
Theorem C6_saveEntry_success {X} (E : Env X) (w : World X)
    (cs : Session) (u : User) :
  has_user (session (react w)) = true ->
  trim (currentEntry (react w)) <> [] ->
  sessionError (recheck E w) = None ->
  data_session (recheck E w) = Some cs ->
  user cs = Some u ->
  insert_reply E w u = None ->
  currentEntry (react (after (handleSaveEntry E) w)) = []
  /\ showSuccess (react (after (handleSaveEntry E) w)) = true
  /\ timers (after (handleSaveEntry E) w)
     = timers w ++ [{| delay_ms := 3000; callback := HideSuccess |}]
  /\ (forall w2 : World X,
        showSuccess (react (after (runTimer HideSuccess) w2)) = false)
  /\ calls (after (handleSaveEntry E) w)
     = calls w ++ [GetSession; Insert journal_entries [new_entry E w u];
                   select_call]
  /\ entries (react (after (handleSaveEntry E) w))
     = match selectError (select_reply E (after_insert E w u)),
             data (select_reply E (after_insert E w u)) with
       | None, Some d => d
       | None, None => []
       | Some _, _ => entries (react w)
       end
  /\ saving (react (after (handleSaveEntry E) w)) = false
  /\ error (react (after (handleSaveEntry E) w)) = None.
Proof.
  intros Hu Ht He Hd Hcu Hi.
  assert (Hrun : after (handleSaveEntry E) w
                 = after (setSaving false) (after (loadEntries E) (saved E w u))).
  { unfold after at 1. rewrite (save_ok E w cs u Hu Ht He Hd Hcu Hi).
    reflexivity. }
  rewrite Hrun, after_setSaving. cbn [react timers calls].
  destruct (loadEntries_keeps E (saved E w u))
    as (Herr & Hcur & Hsh & _ & _ & Htm).
  unfold with_saving; cbn [currentEntry showSuccess entries saving error].
  rewrite Hcur, Hsh, Htm, Herr, loadEntries_calls.
  repeat split; try reflexivity.
  - unfold saved; cbn [calls]. rewrite <- app_assoc. reflexivity.
  - destruct (selectError (select_reply E (after_insert E w u))) eqn:Hs.
    + rewrite (loadEntries_failed E (saved E w u) j Hs). reflexivity.
    + rewrite (loadEntries_ok E (saved E w u) Hs). reflexivity.
Qed.

Lemma C6_saveEntry_success_witness :
  insert_reply scripted
    (start (signedIn (lit " Today was good. ") [entry0]) healthy) alice = None
  /\ currentEntry (react (after (handleSaveEntry scripted)
                     (start (signedIn (lit " Today was good. ") [entry0]) healthy)))
     = []
  /\ showSuccess (react (after (handleSaveEntry scripted)
                     (start (signedIn (lit " Today was good. ") [entry0]) healthy)))
     = true
  /\ timers (after (handleSaveEntry scripted)
               (start (signedIn (lit " Today was good. ") [entry0]) healthy))
     = [{| delay_ms := 3000; callback := HideSuccess |}]
  /\ entries (react (after (handleSaveEntry scripted)
                     (start (signedIn (lit " Today was good. ") [entry0]) healthy)))
     = [entry1; entry0].
Proof.
  split; [reflexivity|].
  pose proof (C6_saveEntry_success scripted
                (start (signedIn (lit " Today was good. ") [entry0]) healthy)
                aliceSession alice
                eq_refl ltac:(discriminate) eq_refl eq_refl eq_refl eq_refl)
    as (H1 & H2 & H3 & _ & _ & H6 & _).
  exact (conj H1 (conj H2 (conj H3 H6))).
Defined.

(** C7. When the list query fails, [loadEntries] returns normally with every
    state cell, the entry list among them, exactly as it was; the failure is
    logged. *)
Theorem C7_loadEntries_failure_keeps_list {X} (E : Env X) (w : World X)
    (e : JsError) :
  selectError (select_reply E (outside w)) = Some e ->
  outcome (loadEntries E) w = Ok tt
  /\ entries (react (after (loadEntries E) w)) = entries (react w)
  /\ react (after (loadEntries E) w) = react w
  /\ console (after (loadEntries E) w) = console w ++ [load_failed_line e].
Proof.
  intro H. split; [apply loadEntries_returns|].
  rewrite (loadEntries_failed E w e H). simpl. tauto.
Qed.

Lemma C7_loadEntries_failure_keeps_list_witness :
  selectError (select_reply scripted
                 (outside (start (signedIn [] [entry1; entry0])
                             (with_select selectFails healthy))))
  = Some (plainError "connection reset")
  /\ outcome (loadEntries scripted)
       (start (signedIn [] [entry1; entry0]) (with_select selectFails healthy))
     = Ok tt
  /\ entries (react (after (loadEntries scripted)
                       (start (signedIn [] [entry1; entry0])
                          (with_select selectFails healthy))))
     = [entry1; entry0]
  /\ react (after (loadEntries scripted)
              (start (signedIn [] [entry1; entry0])
                 (with_select selectFails healthy)))
     = signedIn [] [entry1; entry0]
  /\ console (after (loadEntries scripted)
                (start (signedIn [] [entry1; entry0])
                   (with_select selectFails healthy)))
     = [load_failed_line (plainError "connection reset")].
Proof.
  split; [reflexivity|].
  exact (C7_loadEntries_failure_keeps_list scripted
           (start (signedIn [] [entry1; entry0]) (with_select selectFails healthy))
           (plainError "connection reset") eq_refl).
Defined.



(** The cache is emptied by the sign-out handler itself. *)
Example signOut_empties_cache :
  entries (react (after (handleSignOut scripted)
                    (start (signedIn (lit "draft") [entry1; entry0]) healthy)))
  = []
  /\ currentEntry (react (after (handleSignOut scripted)
                    (start (signedIn (lit "draft") [entry1; entry0]) healthy)))
     = [].
Proof. split; reflexivity. Qed.

(** C10, as the code has it.  [handleDeleteEntry] looks at no session:
    whatever the state, once the user confirms, the delete request for the
    given id is the first thing sent; when the user declines, nothing is
    sent and no state cell, log line or timer changes.  [handleSaveEntry] has
    a session guard: without a user in the session it sends nothing.
    [loadEntries] has none: in every state it sends the list query. *)
Theorem C10_deleteEntry_no_session_check {X} (E : Env X)
    (entry_id : jsstring) (w : World X) :
  outcome (handleDeleteEntry E entry_id) w = Ok tt
  /\ (if confirm_reply E w
      then exists rest,
             calls (after (handleDeleteEntry E entry_id) w)
             = calls w ++ DeleteEq journal_entries (lit "id") entry_id :: rest
      else calls (after (handleDeleteEntry E entry_id) w) = calls w
           /\ react (after (handleDeleteEntry E entry_id) w) = react w
           /\ console (after (handleDeleteEntry E entry_id) w) = console w
           /\ timers (after (handleDeleteEntry E entry_id) w) = timers w)
  /\ (has_user (session (react w)) = false ->
      calls (after (handleSaveEntry E) w) = calls w)
  /\ calls (after (loadEntries E) w) = calls w ++ [select_call].
Proof.
  split; [|split; [|split]].
  - unfold outcome.
    destruct (confirm_reply E w) eqn:Hc.
    + destruct (delete_reply E entry_id (after_confirm E w)) as [e|] eqn:Hd.
      * rewrite (delete_failed E w entry_id e Hc Hd). reflexivity.
      * rewrite (delete_ok E w entry_id Hc Hd). reflexivity.
    + rewrite (delete_declined E w entry_id Hc). reflexivity.
  - unfold after.
    destruct (confirm_reply E w) eqn:Hc.
    + destruct (delete_reply E entry_id (after_confirm E w)) as [e|] eqn:Hd.
      * rewrite (delete_failed E w entry_id e Hc Hd). cbn.
        exists []. reflexivity.
      * rewrite (delete_ok E w entry_id Hc Hd). cbn [fst snd].
        rewrite loadEntries_calls. cbn.
        exists [select_call]. rewrite <- app_assoc. reflexivity.
    + rewrite (delete_declined E w entry_id Hc). cbn. tauto.
  - intro Hu. unfold after. rewrite (save_without_user E w Hu). reflexivity.
  - apply loadEntries_calls.
Qed.

Lemma C10_deleteEntry_no_session_check_witness :
  has_user (session (react (start (signedOut (lit "Dear diary") [entry1; entry0])
                              healthy))) = false
  /\ (exists rest,
        calls (after (handleDeleteEntry scripted (lit "e1"))
                 (start (signedOut (lit "Dear diary") [entry1; entry0]) healthy))
        = [] ++ DeleteEq journal_entries (lit "id") (lit "e1") :: rest)
  /\ calls (after (handleSaveEntry scripted)
              (start (signedOut (lit "Dear diary") [entry1; entry0]) healthy))
     = []
  /\ calls (after (loadEntries scripted)
              (start (signedOut (lit "Dear diary") [entry1; entry0]) healthy))
     = [] ++ [select_call].
Proof.
  split; [reflexivity|].
  destruct (C10_deleteEntry_no_session_check scripted (lit "e1")
              (start (signedOut (lit "Dear diary") [entry1; entry0]) healthy))
    as (_ & Hd & Hs & Hl).
  exact (conj Hd (conj (Hs eq_refl) Hl)).
Defined.

(** C10, as the claim states it, fails in what it says of the list
    operation: [loadEntries] run with no session sends the list query and
    replaces the list with the reply. *)
Lemma C10_loadEntries_has_no_session_check :
  session (react (start (signedOut [] []) healthy)) = None
  /\ calls (after (loadEntries scripted) (start (signedOut [] []) healthy))
     = [select_call]
  /\ entries (react (after (loadEntries scripted)
                       (start (signedOut [] []) healthy)))
     = [entry1; entry0]
  /\ error (react (after (loadEntries scripted)
                     (start (signedOut [] []) healthy))) = None.
Proof. repeat split. Qed.

(** Signed out, the delete still goes to the backend. *)
Example delete_signed_out :
  calls (after (handleDeleteEntry scripted (lit "e1"))
           (start (signedOut [] [entry1; entry0]) healthy))
  = [DeleteEq journal_entries (lit "id") (lit "e1"); select_call].
Proof. vm_compute. reflexivity. Qed.

Example delete_declined_example :
  after (handleDeleteEntry scripted (lit "e1"))
    (start (signedIn [] [entry1; entry0]) (with_confirm false healthy))
  = start (signedIn [] [entry1; entry0]) (with_confirm false healthy).
Proof. vm_compute. reflexivity. Qed.

(** C8, as the code has it.  A failure of the save at the session re-check
    or at the insert is logged and stored as a message in the error state;
    a validation failure and a failed delete are stored as a message in the
    error state and not logged; every failure of the list query -- on mount,
    after a session change, and in the refresh after a save or a delete --
    is logged only and leaves the error state as it was before the query. *)
Theorem C8_failures_surfaced_or_logged {X} (E : Env X) (w : World X) :
  (has_user (session (react w)) = false \/ trim (currentEntry (react w)) = [] ->
   (exists msg, error (react (after (handleSaveEntry E) w)) = Some msg)
   /\ console (after (handleSaveEntry E) w) = console w)
  /\ (has_user (session (react w)) = true ->
      trim (currentEntry (react w)) <> [] ->
      recheck_valid (recheck E w) = false ->
      error (react (after (handleSaveEntry E) w))
      = Some (lit "Session expired. Please log in again.")
      /\ console (after (handleSaveEntry E) w)
         = console w ++ [save_failed_line sessionExpired])
  /\ (forall cs u e,
      has_user (session (react w)) = true ->
      trim (currentEntry (react w)) <> [] ->
      sessionError (recheck E w) = None ->
      data_session (recheck E w) = Some cs ->
      user cs = Some u ->
      insert_reply E w u = Some e ->
      error (react (after (handleSaveEntry E) w))
      = Some (messageOr "Failed to save entry" e)
      /\ console (after (handleSaveEntry E) w)
         = console w ++ [database_line e; save_failed_line e])
  /\ (forall entry_id e,
      confirm_reply E w = true ->
      delete_reply E entry_id (after_confirm E w) = Some e ->
      error (react (after (handleDeleteEntry E entry_id) w))
      = Some (messageOr "Failed to delete entry" e)
      /\ console (after (handleDeleteEntry E entry_id) w) = console w)
  /\ (forall cs u e,
      has_user (session (react w)) = true ->
      trim (currentEntry (react w)) <> [] ->
      sessionError (recheck E w) = None ->
      data_session (recheck E w) = Some cs ->
      user cs = Some u ->
      insert_reply E w u = None ->
      selectError (select_reply E (after_insert E w u)) = Some e ->
      error (react (after (handleSaveEntry E) w)) = None
      /\ console (after (handleSaveEntry E) w)
         = console w ++ [load_failed_line e])
  /\ (forall entry_id e,
      confirm_reply E w = true ->
      delete_reply E entry_id (after_confirm E w) = None ->
      selectError (select_reply E (after_delete E w entry_id)) = Some e ->
      error (react (after (handleDeleteEntry E entry_id) w)) = error (react w)
      /\ console (after (handleDeleteEntry E entry_id) w)
         = console w ++ [load_failed_line e])
  /\ (forall ev s e,
      selectError (select_reply E (outside w)) = Some e ->
      error (react (after (onAuthStateChange_handler E ev (Some s)) w))
      = error (react w)
      /\ console (after (onAuthStateChange_handler E ev (Some s)) w)
         = console w ++ [load_failed_line e])
  /\ (forall s e,
      data_session (recheck E w) = Some s ->
      selectError (select_reply E (after_recheck E w)) = Some e ->
      error (react (after (useEffect_mount E) w)) = error (react w)
      /\ console (after (useEffect_mount E) w)
         = console w ++ [load_failed_line e]).
Proof.
  repeat apply conj.
  - intros H. unfold after.
    destruct (has_user (session (react w))) eqn:Hu.
    + destruct H as [H|H]; [discriminate|].
      rewrite (save_blank E w Hu H). cbn. split; [eexists|]; reflexivity.
    + rewrite (save_without_user E w Hu). cbn. split; [eexists|]; reflexivity.
  - intros Hu Ht Hv. unfold after.
    rewrite (save_expired E w Hu Ht Hv). cbn. tauto.
  - intros cs u e Hu Ht He Hd Hcu Hi. unfold after.
    rewrite (save_insert_failed E w cs u e Hu Ht He Hd Hcu Hi). cbn. tauto.
  - intros i e Hc Hd. unfold after.
    rewrite (delete_failed E w i e Hc Hd). cbn. tauto.
  - intros cs u e Hu Ht He Hd Hcu Hi Hs.
    assert (Hrun : after (handleSaveEntry E) w
                   = after (setSaving false) (after (loadEntries E) (saved E w u))).
    { unfold after at 1. rewrite (save_ok E w cs u Hu Ht He Hd Hcu Hi).
      reflexivity. }
    rewrite Hrun, after_setSaving, (loadEntries_failed E (saved E w u) e Hs).
    cbn. tauto.
  - intros i e Hc Hd Hs. unfold after at 1 2.
    rewrite (delete_ok E w i Hc Hd). cbn [snd].
    rewrite (loadEntries_failed E (deleted E w i) e Hs). cbn. tauto.
  - intros ev s e Hs. unfold after at 1 2.
    rewrite authChange_present. cbn [snd].
    rewrite (loadEntries_failed E
               {| react := with_session (Some s) (react w);
                  outside := outside w; calls := calls w;
                  console := console w; timers := timers w |} e Hs).
    cbn. tauto.
  - intros s e Hd Hs. unfold after at 1 2.
    rewrite (mount_present E s w Hd). cbn [snd].
    rewrite (loadEntries_failed E
               {| react := with_loading false (with_session (Some s) (react w));
                  outside := after_recheck E w;
                  calls := calls w ++ [GetSession; OnAuthStateChange];
                  console := console w; timers := timers w |} e Hs).
    cbn. tauto.
Qed.

(** C8, as the claim states it, fails: when the refresh after a successful
    insert fails, the save ends with no error message, the failure on the
    console only; a refused delete and a blank save set the message and log
    nothing. *)
Lemma C8_refresh_failure_not_surfaced :
  insert_reply scripted refreshFails alice = None
  /\ selectError (select_reply scripted (after_insert scripted refreshFails alice))
     = Some (plainError "connection reset")
  /\ error (react (after (handleSaveEntry scripted) refreshFails)) = None
  /\ console (after (handleSaveEntry scripted) refreshFails)
     = [load_failed_line (plainError "connection reset")]
  /\ error (react (after (handleDeleteEntry scripted (lit "e1")) deleteRefused))
     = Some (lit "permission denied")
  /\ console (after (handleDeleteEntry scripted (lit "e1")) deleteRefused) = []
  /\ error (react (after (handleSaveEntry scripted)
                     (start (signedIn (lit "   ") [entry0]) healthy)))
     = Some (lit "Entry cannot be empty")
  /\ console (after (handleSaveEntry scripted)
                (start (signedIn (lit "   ") [entry0]) healthy)) = [].
Proof. repeat split; vm_compute; reflexivity. Qed.

Lemma C8_failures_surfaced_or_logged_witness :
  insert_reply scripted refreshFails alice = None
  /\ selectError (select_reply scripted (after_insert scripted refreshFails alice))
     = Some (plainError "connection reset")
  /\ error (react (after (handleSaveEntry scripted) refreshFails)) = None
  /\ console (after (handleSaveEntry scripted) refreshFails)
     = [] ++ [load_failed_line (plainError "connection reset")].
Proof.
  split; [reflexivity|]. split; [reflexivity|].
  destruct (C8_failures_surfaced_or_logged scripted refreshFails)
    as (_ & _ & _ & _ & H & _).
  exact (H aliceSession alice (plainError "connection reset")
           eq_refl ltac:(discriminate) eq_refl eq_refl eq_refl eq_refl eq_refl).
Defined.

(** * Further properties of the handlers *)

(** Every run of [loadEntries] is one of two. *)
Lemma load_cases {X} (E : Env X) (w : World X) :
  (exists e, selectError (select_reply E (outside w)) = Some e
             /\ after (loadEntries E) w
                = {| react := react w;
                     outside := snd (from_select_order E journal_entries (lit "*")
                                       (lit "created_at") false (outside w));
                     calls := calls w ++ [select_call];
                     console := console w ++ [load_failed_line e];
                     timers := timers w |})
  \/ (selectError (select_reply E (outside w)) = None
      /\ after (loadEntries E) w
         = {| react := with_entries
                         (match data (select_reply E (outside w)) with
                          | Some d => d
                          | None => []
                          end) (react w);
              outside := snd (from_select_order E journal_entries (lit "*")
                                (lit "created_at") false (outside w));
              calls := calls w ++ [select_call];
              console := console w;
              timers := timers w |}).
Proof.
  destruct (selectError (select_reply E (outside w))) as [e|] eqn:H.
  - left. exists e. split; [reflexivity|]. apply loadEntries_failed, H.
  - right. split; [reflexivity|]. apply loadEntries_ok, H.
Qed.

(** Every run of [handleSaveEntry] is one of six. *)
Lemma save_cases {X} (E : Env X) (w : World X) :
  (has_user (session (react w)) = false
   /\ after (handleSaveEntry E) w
      = refused "You must be logged in to save entries" w)
  \/ (has_user (session (react w)) = true
      /\ trim (currentEntry (react w)) = []
      /\ after (handleSaveEntry E) w = refused "Entry cannot be empty" w)
  \/ (has_user (session (react w)) = true
      /\ trim (currentEntry (react w)) <> []
      /\ ((recheck_valid (recheck E w) = false
           /\ after (handleSaveEntry E) w
              = aborted w sessionExpired (after_recheck E w) [GetSession] [])
          \/ (exists cs,
                 sessionError (recheck E w) = None
                 /\ data_session (recheck E w) = Some cs
                 /\ user cs = None
                 /\ after (handleSaveEntry E) w
                    = aborted w (absentUser_error E (after_recheck E w))
                        (after_recheck E w)
                        [GetSession] [])
          \/ (exists cs u e,
                 sessionError (recheck E w) = None
                 /\ data_session (recheck E w) = Some cs
                 /\ user cs = Some u
                 /\ insert_reply E w u = Some e
                 /\ after (handleSaveEntry E) w
                    = aborted w e (after_insert E w u)
                        [GetSession; Insert journal_entries [new_entry E w u]]
                        [database_line e])
          \/ (exists cs u,
                 sessionError (recheck E w) = None
                 /\ data_session (recheck E w) = Some cs
                 /\ user cs = Some u
                 /\ insert_reply E w u = None
                 /\ after (handleSaveEntry E) w
                    = after (setSaving false)
                        (after (loadEntries E) (saved E w u))))).
Proof.
  unfold after at 1 2 3 4 5 6.
  destruct (has_user (session (react w))) eqn:Hu.
  2:{ left. split; [reflexivity|]. rewrite (save_without_user E w Hu). reflexivity. }
  right.
  destruct (trim (currentEntry (react w))) as [|c r] eqn:Ht.
  { left. split; [reflexivity|]. split; [reflexivity|].
    rewrite (save_blank E w Hu Ht). reflexivity. }
  right. split; [reflexivity|].
  assert (Hne : trim (currentEntry (react w)) <> []) by (rewrite Ht; discriminate).
  split; [rewrite <- Ht; exact Hne|].
  destruct (recheck_valid (recheck E w)) eqn:Hv.
  2:{ left. split; [reflexivity|]. rewrite (save_expired E w Hu Hne Hv). reflexivity. }
  right. unfold recheck_valid in Hv.
  destruct (sessionError (recheck E w)) eqn:He; [discriminate|].
  destruct (data_session (recheck E w)) as [cs|] eqn:Hd; [|discriminate].
  destruct (user cs) as [u|] eqn:Hcu.
  - right. destruct (insert_reply E w u) as [e|] eqn:Hi.
    + left. exists cs, u, e. repeat (split; [reflexivity || assumption|]).
      rewrite (save_insert_failed E w cs u e Hu Hne He Hd Hcu Hi). reflexivity.
    + right. exists cs, u. repeat (split; [reflexivity || assumption|]).
      rewrite (save_ok E w cs u Hu Hne He Hd Hcu Hi). reflexivity.
  - left. exists cs. repeat (split; [reflexivity || assumption|]).
    rewrite (save_user_missing E w cs Hu Hne He Hd Hcu). reflexivity.
Qed.

Lemma save_returns {X} (E : Env X) (w : World X) :
  outcome (handleSaveEntry E) w = Ok tt.
Proof.
  unfold outcome.
  destruct (has_user (session (react w))) eqn:Hu.
  2:{ rewrite (save_without_user E w Hu). reflexivity. }
  destruct (trim (currentEntry (react w))) as [|c r] eqn:Ht.
  { rewrite (save_blank E w Hu Ht). reflexivity. }
  assert (Hne : trim (currentEntry (react w)) <> []) by (rewrite Ht; discriminate).
  destruct (recheck_valid (recheck E w)) eqn:Hv.
  2:{ rewrite (save_expired E w Hu Hne Hv). reflexivity. }
  unfold recheck_valid in Hv.
  destruct (sessionError (recheck E w)) eqn:He; [discriminate|].
  destruct (data_session (recheck E w)) as [cs|] eqn:Hd; [|discriminate].
  destruct (user cs) as [u|] eqn:Hcu.
  - destruct (insert_reply E w u) as [e|] eqn:Hi.
    + rewrite (save_insert_failed E w cs u e Hu Hne He Hd Hcu Hi). reflexivity.
    + rewrite (save_ok E w cs u Hu Hne He Hd Hcu Hi). reflexivity.
  - rewrite (save_user_missing E w cs Hu Hne He Hd Hcu). reflexivity.
Qed.

Lemma delete_returns {X} (E : Env X) (entry_id : jsstring) (w : World X) :
  outcome (handleDeleteEntry E entry_id) w = Ok tt.
Proof.
  unfold outcome.
  destruct (confirm_reply E w) eqn:Hc.
  - destruct (delete_reply E entry_id (after_confirm E w)) as [e|] eqn:Hd.
    + rewrite (delete_failed E w entry_id e Hc Hd). reflexivity.
    + rewrite (delete_ok E w entry_id Hc Hd). reflexivity.
  - rewrite (delete_declined E w entry_id Hc). reflexivity.
Qed.

(** What [handleAuth] leaves behind, in one equation. *)
Lemma auth_run {X} (E : Env X) (w : World X) :
  handleAuth E w
  = (Ok tt,
     {| react :=
          with_authError
            (if isLogin (react w)
             then match signIn_reply E w with
                  | Some e => Some (messageOr "An error occurred" e)
                  | None => None
                  end
             else match signUp_reply E w with
                  | Some e => Some (messageOr "An error occurred" e)
                  | None => Some (lit "Check your email for the confirmation link!")
                  end)
            (with_authError None (react w));
        outside :=
          if isLogin (react w)
          then snd (auth_signInWithPassword E (email (react w))
                      (password (react w)) (outside w))
          else snd (auth_signUp E (email (react w)) (password (react w))
                      (outside w));
        calls := calls w ++ [auth_call w];
        console := console w; timers := timers w |}).
Proof.
  unfold signIn_reply, signUp_reply, auth_call. unfold_js. simpl.
  destruct (isLogin (react w)); simpl.
  - destruct (auth_signInWithPassword E _ _ (outside w)) as [r x1]; simpl.
    destruct r; reflexivity.
  - destruct (auth_signUp E _ _ (outside w)) as [r x1]; simpl.
    destruct r; reflexivity.
Qed.

Lemma save_frame {X} (E : Env X) (w : World X) :
  session (react (after (handleSaveEntry E) w)) = session (react w)
  /\ loading (react (after (handleSaveEntry E) w)) = loading (react w)
  /\ same_form (react (after (handleSaveEntry E) w)) (react w).
Proof.
  unfold same_form.
  destruct (save_cases E w)
    as [(_ & ->) | [(_ & _ & ->) | (_ & _ & [(_ & ->) | [(cs & _ & _ & _ & ->)
       | [(cs & u & e & _ & _ & _ & _ & ->) | (cs & u & _ & _ & _ & _ & ->)]]])]];
    try (cbn; tauto).
  rewrite after_setSaving. cbn [react].
  destruct (load_cases E (saved E w u)) as [(e & _ & ->) | (_ & ->)];
    cbn; tauto.
Qed.

Lemma aborted_state {X} (w : World X) (e : JsError) (x : X) (cs : list Call)
    (logged : list LogLine) :
  error (react (aborted w e x cs logged))
  = Some (messageOr "Failed to save entry" e)
  /\ currentEntry (react (aborted w e x cs logged)) = currentEntry (react w)
  /\ session (react (aborted w e x cs logged)) = session (react w)
  /\ saving (react (aborted w e x cs logged)) = false
  /\ showSuccess (react (aborted w e x cs logged)) = showSuccess (react w)
  /\ entries (react (aborted w e x cs logged)) = entries (react w)
  /\ timers (aborted w e x cs logged) = timers w.
Proof. repeat split. Qed.

(** X1. No handler that throws inside lets the exception out: whatever the
    backend replies, [loadEntries], [handleAuth], [handleSaveEntry] and
    [handleDeleteEntry] return normally. *)
Theorem X1_handlers_catch_everything {X} (E : Env X) (w : World X)
    (entry_id : jsstring) :
  outcome (loadEntries E) w = Ok tt
  /\ outcome (handleAuth E) w = Ok tt
  /\ outcome (handleSaveEntry E) w = Ok tt
  /\ outcome (handleDeleteEntry E entry_id) w = Ok tt.
Proof.
  split; [apply loadEntries_returns|].
  split; [unfold outcome; rewrite auth_run; reflexivity|].
  split; [apply save_returns | apply delete_returns].
Qed.

(** X2. The requests of one [handleSaveEntry] are a prefix of: the session
    re-check, one insert of one row, the list query -- in that order.  There
    is never a delete and never a second insert, and a row that is sent
    holds the composer content, which has a code unit that is not white
    space. *)
Theorem X2_saveEntry_requests {X} (E : Env X) (w : World X) :
  exists cs,
    calls (after (handleSaveEntry E) w) = calls w ++ cs
    /\ (cs = []
        \/ cs = [GetSession]
        \/ exists row,
             (cs = [GetSession; Insert journal_entries [row]]
              \/ cs = [GetSession; Insert journal_entries [row]; select_call])
             /\ new_content row = currentEntry (react w)
             /\ forallb isWhiteSpace (new_content row) = false).
Proof.
  assert (Hws : trim (currentEntry (react w)) <> [] ->
                forallb isWhiteSpace (currentEntry (react w)) = false).
  { intro Hne. destruct (forallb isWhiteSpace (currentEntry (react w))) eqn:Hf;
      [|reflexivity].
    apply trim_nil_iff in Hf. contradiction. }
  destruct (save_cases E w)
    as [(_ & ->) | [(_ & _ & ->) | (_ & Hne & [(_ & ->) | [(cs & _ & _ & _ & ->)
       | [(cs & u & e & _ & _ & _ & _ & ->) | (cs & u & _ & _ & _ & _ & ->)]]])]].
  - exists []. split; [symmetry; apply app_nil_r|]. auto.
  - exists []. split; [symmetry; apply app_nil_r|]. auto.
  - exists [GetSession]. split; [reflexivity|]. auto.
  - exists [GetSession]. split; [reflexivity|]. auto.
  - eexists. split; [reflexivity|]. right. right.
    exists (new_entry E w u). split; [left; reflexivity|].
    split; [reflexivity|]. apply Hws, Hne.
  - rewrite after_setSaving. cbn [calls]. rewrite loadEntries_calls.
    unfold saved at 1. cbn [calls]. rewrite <- app_assoc.
    eexists. split; [reflexivity|]. right. right.
    exists (new_entry E w u). split; [right; reflexivity|].
    split; [reflexivity|]. apply Hws, Hne.
Qed.

(** X3. [saving] is down again at the end of every [handleSaveEntry] that
    got past its guards, whatever was thrown on the way; a save stopped by a
    guard does not touch the flag. *)
Theorem X3_saveEntry_saving_flag {X} (E : Env X) (w : World X) :
  saving (react (after (handleSaveEntry E) w))
  = if has_user (session (react w))
       && truthy_string (trim (currentEntry (react w)))
    then false
    else saving (react w).
Proof.
  destruct (save_cases E w)
    as [(Hu & ->) | [(Hu & Ht & ->) | (Hu & Hne & [(_ & ->) | [(cs & _ & _ & _ & ->)
       | [(cs & u & e & _ & _ & _ & _ & ->) | (cs & u & _ & _ & _ & _ & ->)]]])]];
    rewrite Hu; try (rewrite (truthy_trim_true _ Hne)); cbn; try reflexivity.
  rewrite Ht. reflexivity.
Qed.

(** X4. [handleSaveEntry] never writes the session, the loading flag or
    the auth form: the screen after a save is the screen before it, also
    when the re-check has just found the session gone. *)
Theorem X4_saveEntry_keeps_session_and_form {X} (E : Env X) (w : World X) :
  session (react (after (handleSaveEntry E) w)) = session (react w)
  /\ loading (react (after (handleSaveEntry E) w)) = loading (react w)
  /\ same_form (react (after (handleSaveEntry E) w)) (react w)
  /\ screen (react (after (handleSaveEntry E) w)) = screen (react w).
Proof.
  destruct (save_frame E w) as (Hs & Hl & Hf). repeat split; try assumption; try apply Hf.
  unfold screen. rewrite Hs, Hl. reflexivity.
Qed.

(** X5. When the re-check returns a session object without a user, reading
    [currentSession.user.id] throws before anything is inserted: the
    re-check is the only request; the message of the thrown [TypeError],
    however the engine words it, is what is stored in the error state and
    logged; the composer keeps its text. *)
Theorem X5_saveEntry_recheck_without_user {X} (E : Env X) (w : World X)
    (cs : Session) :
  has_user (session (react w)) = true ->
  trim (currentEntry (react w)) <> [] ->
  sessionError (recheck E w) = None ->
  data_session (recheck E w) = Some cs ->
  user cs = None ->
  calls (after (handleSaveEntry E) w) = calls w ++ [GetSession]
  /\ error (react (after (handleSaveEntry E) w))
     = Some (typeError_message E (lit "id") (after_recheck E w))
  /\ console (after (handleSaveEntry E) w)
     = console w
       ++ [save_failed_line
             (newError (typeError_message E (lit "id") (after_recheck E w)))]
  /\ currentEntry (react (after (handleSaveEntry E) w)) = currentEntry (react w)
  /\ entries (react (after (handleSaveEntry E) w)) = entries (react w)
  /\ saving (react (after (handleSaveEntry E) w)) = false
  /\ timers (after (handleSaveEntry E) w) = timers w.
Proof.
  intros Hu Ht He Hd Hcu. unfold after.
  rewrite (save_user_missing E w cs Hu Ht He Hd Hcu). cbn. tauto.
Qed.

Lemma X5_saveEntry_recheck_without_user_witness :
  has_user (session (react recheckUserless)) = true
  /\ trim (currentEntry (react recheckUserless)) <> []
  /\ data_session (recheck scripted recheckUserless) = Some userlessSession
  /\ calls (after (handleSaveEntry scripted) recheckUserless)
     = [] ++ [GetSession]
  /\ error (react (after (handleSaveEntry scripted) recheckUserless))
     = Some (typeError_message scripted (lit "id")
               (after_recheck scripted recheckUserless))
  /\ currentEntry (react (after (handleSaveEntry scripted) recheckUserless))
     = lit "Dear diary".
Proof.
  split; [reflexivity|]. split; [discriminate|]. split; [reflexivity|].
  pose proof (X5_saveEntry_recheck_without_user scripted recheckUserless
                userlessSession eq_refl ltac:(discriminate)
                eq_refl eq_refl eq_refl) as (H1 & H2 & _ & H4 & _).
  exact (conj H1 (conj H2 H4)).
Defined.

(** X6. A save that got past the guards ends in one of two ways.  Either it
    succeeded: no error, composer empty, success flag up.  Or it shows an
    error and can be retried as it is: the composer text and the session are
    the same, the save button is enabled, and the success flag and the
    timers are as before. *)
Theorem X6_saveEntry_succeeds_or_is_retryable {X} (E : Env X) (w : World X) :
  has_user (session (react w)) = true ->
  trim (currentEntry (react w)) <> [] ->
  (error (react (after (handleSaveEntry E) w)) = None
   /\ currentEntry (react (after (handleSaveEntry E) w)) = []
   /\ showSuccess (react (after (handleSaveEntry E) w)) = true)
  \/ (exists msg,
        error (react (after (handleSaveEntry E) w)) = Some msg
        /\ currentEntry (react (after (handleSaveEntry E) w))
           = currentEntry (react w)
        /\ session (react (after (handleSaveEntry E) w)) = session (react w)
        /\ has_user (session (react (after (handleSaveEntry E) w))) = true
        /\ saveButton_disabled (react (after (handleSaveEntry E) w)) = false
        /\ showSuccess (react (after (handleSaveEntry E) w))
           = showSuccess (react w)
        /\ timers (after (handleSaveEntry E) w) = timers w).
Proof.
  intros Hu Hne.
  assert (Hb : truthy_string (trim (currentEntry (react w))) = true)
    by (apply truthy_trim_true, Hne).
  assert (retry : forall e x cs lg,
            exists msg,
              error (react (aborted w e x cs lg)) = Some msg
              /\ currentEntry (react (aborted w e x cs lg)) = currentEntry (react w)
              /\ session (react (aborted w e x cs lg)) = session (react w)
              /\ has_user (session (react (aborted w e x cs lg))) = true
              /\ saveButton_disabled (react (aborted w e x cs lg)) = false
              /\ showSuccess (react (aborted w e x cs lg)) = showSuccess (react w)
              /\ timers (aborted w e x cs lg) = timers w).
  { intros e x cs lg.
    destruct (aborted_state w e x cs lg) as (H1 & H2 & H3 & H4 & H5 & _ & H7).
    eexists. unfold saveButton_disabled. rewrite H1, H2, H3, H4, H5, H7, Hb, Hu.
    repeat split. }
  destruct (save_cases E w)
    as [(Hu' & _) | [(_ & Ht & _) | (_ & _ & [(_ & ->) | [(cs & _ & _ & _ & ->)
       | [(cs & u & e & _ & _ & _ & _ & ->) | (cs & u & _ & _ & _ & _ & ->)]]])]].
  - congruence.
  - contradiction.
  - right. apply retry.
  - right. apply retry.
  - right. apply retry.
  - left. rewrite after_setSaving. cbn [react].
    destruct (load_cases E (saved E w u)) as [(e & _ & ->) | (_ & ->)];
      cbn; tauto.
Qed.

Lemma X6_saveEntry_succeeds_or_is_retryable_witness :
  has_user (session (react insertRejected)) = true
  /\ trim (currentEntry (react insertRejected)) <> []
  /\ ((error (react (after (handleSaveEntry scripted) insertRejected)) = None
       /\ currentEntry (react (after (handleSaveEntry scripted) insertRejected)) = []
       /\ showSuccess (react (after (handleSaveEntry scripted) insertRejected)) = true)
      \/ (exists msg,
            error (react (after (handleSaveEntry scripted) insertRejected)) = Some msg
            /\ currentEntry (react (after (handleSaveEntry scripted) insertRejected))
               = currentEntry (react insertRejected)
            /\ session (react (after (handleSaveEntry scripted) insertRejected))
               = session (react insertRejected)
            /\ has_user (session (react (after (handleSaveEntry scripted) insertRejected)))
               = true
            /\ saveButton_disabled
                 (react (after (handleSaveEntry scripted) insertRejected)) = false
            /\ showSuccess (react (after (handleSaveEntry scripted) insertRejected))
               = showSuccess (react insertRejected)
            /\ timers (after (handleSaveEntry scripted) insertRejected)
               = timers insertRejected)).
Proof.
  split; [reflexivity|]. split; [discriminate|].
  apply (X6_saveEntry_succeeds_or_is_retryable scripted insertRejected);
    [reflexivity | discriminate].
Defined.

(** X7. Right after a successful save a second click does nothing at the
    backend: the save button is disabled, and the handler, run all the same,
    stops at 'Entry cannot be empty' without sending a request. *)
Theorem X7_saveEntry_twice {X} (E : Env X) (w : World X)
    (cs : Session) (u : User) :
  has_user (session (react w)) = true ->
  trim (currentEntry (react w)) <> [] ->
  sessionError (recheck E w) = None ->
  data_session (recheck E w) = Some cs ->
  user cs = Some u ->
  insert_reply E w u = None ->
  saveButton_disabled (react (after (handleSaveEntry E) w)) = true
  /\ calls (after (handleSaveEntry E) (after (handleSaveEntry E) w))
     = calls (after (handleSaveEntry E) w)
  /\ outside (after (handleSaveEntry E) (after (handleSaveEntry E) w))
     = outside (after (handleSaveEntry E) w)
  /\ error (react (after (handleSaveEntry E) (after (handleSaveEntry E) w)))
     = Some (lit "Entry cannot be empty").
Proof.
  intros Hu Ht He Hd Hcu Hi.
  assert (Hrun : after (handleSaveEntry E) w
                 = after (setSaving false) (after (loadEntries E) (saved E w u))).
  { unfold after at 1. rewrite (save_ok E w cs u Hu Ht He Hd Hcu Hi).
    reflexivity. }
  assert (Hcur : currentEntry (react (after (handleSaveEntry E) w)) = []).
  { rewrite Hrun, after_setSaving. cbn [react].
    destruct (loadEntries_keeps E (saved E w u)) as (_ & Hc & _).
    unfold with_saving; cbn [currentEntry]. rewrite Hc. reflexivity. }
  assert (Hses : has_user (session (react (after (handleSaveEntry E) w))) = true).
  { destruct (save_frame E w) as [Hs _]. rewrite Hs. exact Hu. }
  split.
  - unfold saveButton_disabled. rewrite Hcur. cbn. apply orb_true_r.
  - set (w1 := after (handleSaveEntry E) w) in *.
    unfold after at 1 2 3.
    rewrite (save_blank E w1 Hses); [cbn; tauto|].
    rewrite Hcur. reflexivity.
Qed.

Lemma X7_saveEntry_twice_witness :
  insert_reply scripted
    (start (signedIn (lit " Today was good. ") [entry0]) healthy) alice = None
  /\ saveButton_disabled
       (react (after (handleSaveEntry scripted)
                 (start (signedIn (lit " Today was good. ") [entry0]) healthy)))
     = true
  /\ calls (after (handleSaveEntry scripted)
              (after (handleSaveEntry scripted)
                 (start (signedIn (lit " Today was good. ") [entry0]) healthy)))
     = calls (after (handleSaveEntry scripted)
                (start (signedIn (lit " Today was good. ") [entry0]) healthy))
  /\ error (react (after (handleSaveEntry scripted)
                     (after (handleSaveEntry scripted)
                        (start (signedIn (lit " Today was good. ") [entry0])
                           healthy))))
     = Some (lit "Entry cannot be empty").
Proof.
  split; [reflexivity|].
  pose proof (X7_saveEntry_twice scripted
                (start (signedIn (lit " Today was good. ") [entry0]) healthy)
                aliceSession alice
                eq_refl ltac:(discriminate) eq_refl eq_refl eq_refl eq_refl)
    as (H1 & H2 & _ & H4).
  exact (conj H1 (conj H2 H4)).
Defined.

(** X8. The save button is disabled exactly when a save is in flight or the
    composer holds nothing but white space (the empty composer included). *)
Theorem X8_saveButton_disabled_iff (st : AppState) :
  saveButton_disabled st = true
  <-> saving st = true \/ forallb isWhiteSpace (currentEntry st) = true.
Proof.
  unfold saveButton_disabled. rewrite orb_true_iff, <- trim_nil_iff.
  split; intros [H|H]; auto; right.
  - destruct (trim (currentEntry st)); [reflexivity|discriminate].
  - rewrite H. reflexivity.
Qed.

(** X9. [handleDeleteEntry] sends nothing when the user declines, the
    delete alone when the backend refuses it, and the delete followed by the
    list query when it succeeds: the refresh is sent only after a delete
    that succeeded, and nothing is ever inserted. *)
Theorem X9_deleteEntry_requests {X} (E : Env X) (entry_id : jsstring)
    (w : World X) :
  calls (after (handleDeleteEntry E entry_id) w)
  = calls w
    ++ (if confirm_reply E w
        then DeleteEq journal_entries (lit "id") entry_id
             :: match delete_reply E entry_id (after_confirm E w) with
                | None => [select_call]
                | Some _ => []
                end
        else []).
Proof.
  unfold after.
  destruct (confirm_reply E w) eqn:Hc.
  - destruct (delete_reply E entry_id (after_confirm E w)) as [e|] eqn:Hd.
    + rewrite (delete_failed E w entry_id e Hc Hd). reflexivity.
    + rewrite (delete_ok E w entry_id Hc Hd). cbn [snd].
      rewrite loadEntries_calls. cbn. rewrite <- app_assoc. reflexivity.
  - rewrite (delete_declined E w entry_id Hc). cbn.
    symmetry. apply app_nil_r.
Qed.

(** X10. [handleDeleteEntry] never takes an entry out of the list itself.
    The list after it is the list before it, unless the delete succeeded and
    the list query that follows succeeded too; then it is that query's rows.
    So an entry deleted at the backend stays on screen when the refresh
    fails. *)
Theorem X10_deleteEntry_list {X} (E : Env X) (entry_id : jsstring)
    (w : World X) :
  entries (react (after (handleDeleteEntry E entry_id) w))
  = if confirm_reply E w
    then match delete_reply E entry_id (after_confirm E w),
               selectError (select_reply E (after_delete E w entry_id)),
               data (select_reply E (after_delete E w entry_id)) with
         | None, None, Some d => d
         | None, None, None => []
         | _, _, _ => entries (react w)
         end
    else entries (react w).
Proof.
  unfold after.
  destruct (confirm_reply E w) eqn:Hc.
  - destruct (delete_reply E entry_id (after_confirm E w)) as [e|] eqn:Hd.
    + rewrite (delete_failed E w entry_id e Hc Hd). reflexivity.
    + rewrite (delete_ok E w entry_id Hc Hd). cbn [snd].
      destruct (load_cases E (deleted E w entry_id)) as [(e & He & ->) | (He & ->)];
        cbn in He |- *; rewrite He; [reflexivity|].
      destruct (data _); reflexivity.
  - rewrite (delete_declined E w entry_id Hc). reflexivity.
Qed.

(** X11. [handleDeleteEntry] writes no cell but [entries] and [error], and
    schedules no timer.  It sets [error] only when the delete fails: after a
    delete that succeeded or was declined, a message shown before is still
    shown. *)
Theorem X11_deleteEntry_frame {X} (E : Env X) (entry_id : jsstring)
    (w : World X) :
  error (react (after (handleDeleteEntry E entry_id) w))
  = (if confirm_reply E w
     then match delete_reply E entry_id (after_confirm E w) with
          | Some e => Some (messageOr "Failed to delete entry" e)
          | None => error (react w)
          end
     else error (react w))
  /\ session (react (after (handleDeleteEntry E entry_id) w)) = session (react w)
  /\ loading (react (after (handleDeleteEntry E entry_id) w)) = loading (react w)
  /\ same_form (react (after (handleDeleteEntry E entry_id) w)) (react w)
  /\ currentEntry (react (after (handleDeleteEntry E entry_id) w))
     = currentEntry (react w)
  /\ saving (react (after (handleDeleteEntry E entry_id) w)) = saving (react w)
  /\ showSuccess (react (after (handleDeleteEntry E entry_id) w))
     = showSuccess (react w)
  /\ timers (after (handleDeleteEntry E entry_id) w) = timers w.
Proof.
  unfold after, same_form.
  destruct (confirm_reply E w) eqn:Hc.
  - destruct (delete_reply E entry_id (after_confirm E w)) as [e|] eqn:Hd.
    + rewrite (delete_failed E w entry_id e Hc Hd). cbn. tauto.
    + rewrite (delete_ok E w entry_id Hc Hd). cbn [snd].
      destruct (load_cases E (deleted E w entry_id)) as [(e & _ & ->) | (_ & ->)];
        cbn; tauto.
  - rewrite (delete_declined E w entry_id Hc). cbn. tauto.
Qed.

(** X12. [handleAuth] makes exactly one request: a sign-in in login mode, a
    sign-up otherwise, with the email and password on screen.  It writes no
    cell but [authError]: a successful sign-in does not itself store a
    session, which arrives through the session-change handler. *)
Theorem X12_handleAuth_request {X} (E : Env X) (w : World X) :
  calls (after (handleAuth E) w)
  = calls w
    ++ [if isLogin (react w)
        then SignInWithPassword (email (react w)) (password (react w))
        else SignUp (email (react w)) (password (react w))]
  /\ same_journal (react (after (handleAuth E) w)) (react w)
  /\ email (react (after (handleAuth E) w)) = email (react w)
  /\ password (react (after (handleAuth E) w)) = password (react w)
  /\ isLogin (react (after (handleAuth E) w)) = isLogin (react w)
  /\ showPassword (react (after (handleAuth E) w)) = showPassword (react w)
  /\ console (after (handleAuth E) w) = console w
  /\ timers (after (handleAuth E) w) = timers w.
Proof.
  unfold after, same_journal. rewrite auth_run. cbn. unfold auth_call.
  tauto.
Qed.

(** X13. What the auth form shows after a submit replaces what it showed
    before.  A failed request shows the error's message if the error is an
    [Error] instance and 'An error occurred' otherwise; a successful sign-in
    shows nothing; a successful sign-up shows the request to confirm by
    email. *)
Theorem X13_handleAuth_message {X} (E : Env X) (w : World X) :
  authError (react (after (handleAuth E) w))
  = if isLogin (react w)
    then match signIn_reply E w with
         | Some e => Some (if instanceofError e then message e
                           else lit "An error occurred")
         | None => None
         end
    else match signUp_reply E w with
         | Some e => Some (if instanceofError e then message e
                           else lit "An error occurred")
         | None => Some (lit "Check your email for the confirmation link!")
         end.
Proof.
  unfold after. rewrite auth_run. reflexivity.
Qed.

Example signIn_clears_old_message :
  authError (react (after (handleAuth scripted) (start signInForm healthy)))
  = None
  /\ session (react (after (handleAuth scripted) (start signInForm healthy)))
     = None.
Proof. split; reflexivity. Qed.

Example signIn_rejected :
  authBanner (react (after (handleAuth scripted)
                       (start signInForm
                          (with_signIn (Some (plainError "Invalid login credentials"))
                             healthy))))
  = Some (lit "An error occurred").
Proof. vm_compute. reflexivity. Qed.

(** X14. [handleSignOut] sends the sign-out and empties the feed and the
    composer, whatever they held, but it does not write the session: the
    screen changes only when the session-change handler is told the session
    is gone.  After both, the auth screen shows (once loading is over); an
    error message or success flag from before the sign-out is still set. *)
Theorem X14_signOut_then_session_gone {X} (E : Env X) (ev : jsstring)
    (w : World X) :
  calls (after (handleSignOut E) w) = calls w ++ [SignOut]
  /\ entries (react (after (handleSignOut E) w)) = []
  /\ currentEntry (react (after (handleSignOut E) w)) = []
  /\ session (react (after (handleSignOut E) w)) = session (react w)
  /\ screen (react (after (handleSignOut E) w)) = screen (react w)
  /\ screen (react (after (onAuthStateChange_handler E ev None)
                      (after (handleSignOut E) w)))
     = (if loading (react w) then LoadingScreen else AuthScreen)
  /\ entries (react (after (onAuthStateChange_handler E ev None)
                       (after (handleSignOut E) w))) = []
  /\ calls (after (onAuthStateChange_handler E ev None)
              (after (handleSignOut E) w)) = calls w ++ [SignOut]
  /\ error (react (after (onAuthStateChange_handler E ev None)
                     (after (handleSignOut E) w))) = error (react w)
  /\ showSuccess (react (after (onAuthStateChange_handler E ev None)
                           (after (handleSignOut E) w)))
     = showSuccess (react w).
Proof.
  unfold after. rewrite signOut_clears. cbn [snd].
  rewrite authChange_absent. cbn.
  unfold screen; cbn. repeat split.
Qed.

(** X15. The mount effect always ends the loading screen.  It stores the
    session of the reply, without looking at the reply's error, registers
    the session-change handler, and sends the list query exactly when there
    is a session; the screen after it is the journal when there is one and
    the auth form when there is none. *)
Theorem X15_mount {X} (E : Env X) (w : World X) :
  loading (react (after (useEffect_mount E) w)) = false
  /\ session (react (after (useEffect_mount E) w)) = data_session (recheck E w)
  /\ calls (after (useEffect_mount E) w)
     = calls w ++ [GetSession; OnAuthStateChange]
       ++ match data_session (recheck E w) with
          | Some _ => [select_call]
          | None => []
          end
  /\ screen (react (after (useEffect_mount E) w))
     = match data_session (recheck E w) with
       | Some _ => JournalScreen
       | None => AuthScreen
       end
  /\ error (react (after (useEffect_mount E) w)) = error (react w).
Proof.
  unfold after at 1 2 3 4 5.
  destruct (data_session (recheck E w)) as [s|] eqn:Hd.
  - rewrite (mount_present E s w Hd). cbn [snd].
    match goal with
    | |- context [after (loadEntries E) ?w1] =>
        destruct (load_cases E w1) as [(e & _ & ->) | (_ & ->)]
    end; unfold screen; cbn; rewrite <- ?app_assoc; repeat split.
  - rewrite (mount_absent E w Hd). unfold screen; cbn. repeat split.
Qed.

(** A reply that carries both a session and an error: the mount effect
    takes the session, [handleSaveEntry] takes it for an expired one. *)
Example mount_ignores_session_error :
  session (react (after (useEffect_mount scripted)
                    (start initialState
                       (with_getSession
                          {| data_session := Some aliceSession;
                             sessionError := Some (plainError "refresh failed") |}
                          healthy))))
  = Some aliceSession
  /\ error (react (after (handleSaveEntry scripted)
                     (start (signedIn (lit "Dear diary") [])
                        (with_getSession
                           {| data_session := Some aliceSession;
                              sessionError := Some (plainError "refresh failed") |}
                           healthy))))
     = Some (lit "Session expired. Please log in again.").
Proof. split; vm_compute; reflexivity. Qed.

(** X16. [loadEntries] sends one list query and writes no cell but
    [entries].  When the query succeeds the list becomes the rows of the
    reply, whatever it held before; a reply with neither rows nor error
    empties it. *)
Theorem X16_loadEntries_replaces_list {X} (E : Env X) (w : World X) :
  calls (after (loadEntries E) w) = calls w ++ [select_call]
  /\ entries (react (after (loadEntries E) w))
     = match selectError (select_reply E (outside w)),
             data (select_reply E (outside w)) with
       | None, Some d => d
       | None, None => []
       | Some _, _ => entries (react w)
       end
  /\ session (react (after (loadEntries E) w)) = session (react w)
  /\ loading (react (after (loadEntries E) w)) = loading (react w)
  /\ same_form (react (after (loadEntries E) w)) (react w)
  /\ currentEntry (react (after (loadEntries E) w)) = currentEntry (react w)
  /\ saving (react (after (loadEntries E) w)) = saving (react w)
  /\ error (react (after (loadEntries E) w)) = error (react w)
  /\ showSuccess (react (after (loadEntries E) w)) = showSuccess (react w)
  /\ timers (after (loadEntries E) w) = timers w.
Proof.
  unfold same_form.
  destruct (load_cases E w) as [(e & He & ->) | (He & ->)];
    rewrite He; cbn; repeat split.
Qed.

(** X17. The session-change handler writes no cell but [session] and
    [entries].  It does not end the loading screen: an event that arrives
    while [loading] is still up leaves it up. *)
Theorem X17_authChange_frame {X} (E : Env X) (ev : jsstring)
    (s : option Session) (w : World X) :
  loading (react (after (onAuthStateChange_handler E ev s) w))
  = loading (react w)
  /\ (if loading (react w)
      then screen (react (after (onAuthStateChange_handler E ev s) w))
           = LoadingScreen
      else screen (react (after (onAuthStateChange_handler E ev s) w))
           = match s with Some _ => JournalScreen | None => AuthScreen end)
  /\ same_form (react (after (onAuthStateChange_handler E ev s) w)) (react w)
  /\ currentEntry (react (after (onAuthStateChange_handler E ev s) w))
     = currentEntry (react w)
  /\ saving (react (after (onAuthStateChange_handler E ev s) w))
     = saving (react w)
  /\ error (react (after (onAuthStateChange_handler E ev s) w))
     = error (react w)
  /\ showSuccess (react (after (onAuthStateChange_handler E ev s) w))
     = showSuccess (react w)
  /\ timers (after (onAuthStateChange_handler E ev s) w) = timers w.
Proof.
  unfold after, same_form, screen. destruct s as [s|].
  - rewrite authChange_present. cbn [snd].
    match goal with
    | |- context [after (loadEntries E) ?w1] =>
        destruct (load_cases E w1) as [(e & _ & ->) | (_ & ->)]
    end; cbn; destruct (loading (react w)); repeat split.
  - rewrite authChange_absent. cbn.
    destruct (loading (react w)); repeat split.
Qed.

(** X18. The success flag is never raised without its timer.  One
    [handleSaveEntry] either leaves the flag and the timers as they were, or
    raises the flag and adds one timer of 3000 ms that lowers it; firing
    that timer changes nothing but the flag. *)
Theorem X18_success_flag_has_timer {X} (E : Env X) (w : World X) :
  ((showSuccess (react (after (handleSaveEntry E) w)) = showSuccess (react w)
    /\ timers (after (handleSaveEntry E) w) = timers w)
   \/ (showSuccess (react (after (handleSaveEntry E) w)) = true
       /\ timers (after (handleSaveEntry E) w)
          = timers w ++ [{| delay_ms := 3000; callback := HideSuccess |}]))
  /\ forall w2 : World X,
       after (runTimer HideSuccess) w2
       = {| react := with_showSuccess false (react w2); outside := outside w2;
            calls := calls w2; console := console w2; timers := timers w2 |}.
Proof.
  split; [|reflexivity].
  destruct (save_cases E w)
    as [(_ & ->) | [(_ & _ & ->) | (_ & _ & [(_ & ->) | [(cs & _ & _ & _ & ->)
       | [(cs & u & e & _ & _ & _ & _ & ->) | (cs & u & _ & _ & _ & _ & ->)]]])]];
    try (left; split; reflexivity).
  right. rewrite after_setSaving. cbn [react timers].
  destruct (loadEntries_keeps E (saved E w u)) as (_ & _ & Hsh & _ & _ & Htm).
  unfold with_saving; cbn [showSuccess]. rewrite Hsh, Htm. split; reflexivity.
Qed.

(** X19. After a failed insert the error banner shows, with one exception:
    an [Error] instance whose message is empty is stored as the empty string,
    which renders no banner.  An error that is not an [Error] instance always
    shows 'Failed to save entry'. *)
Theorem X19_insert_failure_banner {X} (E : Env X) (w : World X)
    (cs : Session) (u : User) (e : JsError) :
  has_user (session (react w)) = true ->
  trim (currentEntry (react w)) <> [] ->
  sessionError (recheck E w) = None ->
  data_session (recheck E w) = Some cs ->
  user cs = Some u ->
  insert_reply E w u = Some e ->
  (errorBanner (react (after (handleSaveEntry E) w)) = None
   <-> instanceofError e = true /\ message e = [])
  /\ (instanceofError e = false ->
      errorBanner (react (after (handleSaveEntry E) w))
      = Some (lit "Failed to save entry")).
Proof.
  intros Hu Ht He Hd Hcu Hi. unfold after.
  rewrite (save_insert_failed E w cs u e Hu Ht He Hd Hcu Hi).
  unfold errorBanner, messageOr. cbn.
  destruct e as [[|] [|c m]]; cbn; intuition congruence.
Qed.

Lemma X19_insert_failure_banner_witness :
  insert_reply scripted insertSilent alice = Some silentError
  /\ errorBanner (react (after (handleSaveEntry scripted) insertSilent)) = None
  /\ error (react (after (handleSaveEntry scripted) insertSilent)) = Some [].
Proof.
  split; [reflexivity|]. split; [|reflexivity].
  apply (proj1 (X19_insert_failure_banner scripted insertSilent
                  aliceSession alice silentError
                  eq_refl ltac:(discriminate) eq_refl eq_refl eq_refl eq_refl)).
  split; reflexivity.
Defined.

(** X20. Switching between sign-in and sign-up flips the mode, clears the
    auth message, sends nothing and leaves the typed email and password in
    place; switching twice restores the mode.  The next submit makes the
    other request. *)
Theorem X20_switchMode {X} (E : Env X) (w : World X) :
  isLogin (react (after onClick_switchMode w)) = negb (isLogin (react w))
  /\ authError (react (after onClick_switchMode w)) = None
  /\ email (react (after onClick_switchMode w)) = email (react w)
  /\ password (react (after onClick_switchMode w)) = password (react w)
  /\ calls (after onClick_switchMode w) = calls w
  /\ isLogin (react (after onClick_switchMode (after onClick_switchMode w)))
     = isLogin (react w)
  /\ calls (after (handleAuth E) (after onClick_switchMode w))
     = calls w
       ++ [if isLogin (react w)
           then SignUp (email (react w)) (password (react w))
           else SignInWithPassword (email (react w)) (password (react w))].
Proof.
  repeat split; try reflexivity.
  - cbn. apply negb_involutive.
  - unfold after at 1. rewrite auth_run. cbn. unfold auth_call. cbn.
    destruct (isLogin (react w)); reflexivity.
Qed.
